(** * chat-cli: provider adapters, conversation state and client factory

    A shallow embedding of the Go packages [internal/providers] (the six
    adapters behind [ChatInterface]), [internal/utils] ([ValidateAPIKey])
    and [internal/cli] ([CreateChatClient]).

    Everything outside the repository that the code consults is taken as an
    input: the process environment, the result of each network call, the
    frames a streaming reply delivers and the reading of the wall clock.
    Receivers are passed and returned explicitly; logging and terminal
    output do not influence any returned value or any field and are left
    out. *)

From stdpp Require Import base strings list gmap pretty.

(** ** Go values shared by all adapters *)

(** Values of Go's [error] interface that the adapters can meet.  The two
    sentinels are compared by identity in the source ([err == io.EOF],
    [err == iterator.Done]); [APIError] is go-openai's [*openai.APIError],
    which [OpenAIClient.SendMessage] recognises by a type assertion. *)
Inductive error : Type :=
| io_EOF
| iterator_Done
| APIError (HTTPStatusCode : Z) (Code Message text : string)
| errorString (text : string)
| wrapError (text : string) (cause : error).

(** [err.Error()] *)
Definition Error (e : error) : string :=
  match e with
  | io_EOF => "EOF"
  | iterator_Done => "no more items in iterator"
  | APIError _ _ _ text => text
  | errorString text => text
  | wrapError text _ => text
  end.

(** [fmt.Errorf(prefix + "%w", err)] *)
Definition Errorf_w (prefix : string) (err : error) : error :=
  wrapError (prefix +:+ Error err) err.

(** [fmt.Errorf(prefix + "%v", err)]: the text only, nothing wrapped. *)
Definition Errorf_v (prefix : string) (err : error) : error :=
  errorString (prefix +:+ Error err).

Definition is_io_EOF (e : error) : bool :=
  match e with io_EOF => true | _ => false end.

Definition is_iterator_Done (e : error) : bool :=
  match e with iterator_Done => true | _ => false end.

(** [strings.Contains(s, substr)]: [substr] occurs at some offset of [s]. *)
Fixpoint strings_Contains (s substr : string) : bool :=
  String.prefix substr s ||
  match s with
  | EmptyString => false
  | String _ rest => strings_Contains rest substr
  end.

(** [time.Duration], in nanoseconds. *)
Definition Duration : Type := Z.

(** [os.Getenv]: the empty string for a variable that is not set. *)
Definition os_Getenv (env : gmap string string) (key : string) : string :=
  default "" (env !! key).

(** Indexing a Go [map[string]string]: the zero value for a missing key. *)
Definition map_index (m : gmap string string) (key : string) : string :=
  default "" (m !! key).

(** What a streaming reply delivers: the decoded frames in order, then
    the error every further read returns ([io.EOF] or [iterator.Done] on a
    clean end, anything else on a broken connection or a malformed frame). *)
Record Stream (F : Type) : Type := mkStream {
  frames : list F;
  closing : error
}.
Arguments mkStream {F} _ _.
Arguments frames {F} _.
Arguments closing {F} _.

(** How a receive loop is left. *)
Inductive LoopExit : Type :=
| Break (fullResponse : string)
| Abort (fullResponse : string) (err : error)
| LoopPanic.

(** What a call of [SendMessage] does: it returns its three results and
    leaves the receiver in some state, or it panics. *)
Inductive Outcome (C : Type) : Type :=
| Return (receiver : C) (response : string) (elapsed : Duration)
         (err : option error)
| Panic.
Arguments Return {C} _ _ _ _.
Arguments Panic {C}.

(** What a call of [Initialize] does: the outside resources it touched, in
    order, the receiver it leaves and the error it returns. *)
Inductive Effect : Type :=
| NewHTTPClient (timeoutSeconds : Z)
| HTTPGet (url : string)
| NewOpenAIClient (baseURL apiKey : string)
| NewGenaiClient (apiKey : string).

Record Init (C : Type) : Type := mkInit {
  trace : list Effect;
  self : C;
  failure : option error
}.
Arguments mkInit {C} _ _ _.
Arguments trace {C} _.
Arguments self {C} _.
Arguments failure {C} _.

(** The world outside the process, as [Initialize] sees it. *)
Record World : Type := mkWorld {
  env : gmap string string;
  (* the reply to [http.Client.Get url]: a transport error, or the status
     code and the body *)
  httpGet : string -> error + (Z * string);
  (* the error of [genai.NewClient] for an API key, if any *)
  genaiNewClient : string -> option error;
  (* package [unicode], and the runes [for _, c := range s] yields *)
  unicode_IsLetter : Z -> bool;
  unicode_IsDigit : Z -> bool;
  runes : string -> list Z
}.

(** Modelled from the spec: the role constants of package [consts], which
    is not among the sources; the spec's ConversationMessage has
    [role: enum{system,user,assistant}]. *)
Definition SystemRole : string := "system".
Definition UserRole : string := "user".
Definition AssistantRole : string := "assistant".

Definition systemPrompt : string := "Provide helpful and concise responses".

(** ** internal/providers/ollama.go *)

Module Ollama.

Definition ollamaModels : gmap string string :=
  list_to_map [
    ("mistral", "mistral:latest");
    ("llama", "llama3:latest");
    ("deepseek", "deepseek-coder:latest");
    ("gemma", "gemma:latest")
  ].

Record OllamaMessage : Type := mkMessage {
  Role : string;
  Content : string
}.

(** One decoded chunk of the stream ([CreatedAt] is never read). *)
Record OllamaResponse : Type := mkResponse {
  Model : string;
  Message : OllamaMessage;
  Done : bool
}.

Record OllamaClient : Type := mkClient {
  serverURL : string;
  messages : list OllamaMessage;
  selectedModel : string;
  httpClient : option Z          (* nil, or a client with this timeout (s) *)
}.

(** [&providers.OllamaClient{}] *)
Definition zero : OllamaClient := mkClient "" [] "" None.

Definition Initialize (w : World) (o : OllamaClient) : Init OllamaClient :=
  let url := os_Getenv (env w) "OLLAMA_URL" in
  let url := if decide (url = "") then "http://localhost:11434" else url in
  let modelEnv := os_Getenv (env w) "OLLAMA_MODEL" in
  let model := map_index ollamaModels modelEnv in
  let model :=
    if decide (model = "") then map_index ollamaModels "llama" else model in
  let o :=
    mkClient url [mkMessage SystemRole systemPrompt] model (Some 60%Z) in
  let touched := [NewHTTPClient 60; HTTPGet url] in
  match httpGet w url with
  | inl err =>
      mkInit touched o
        (Some (Errorf_w ("could not connect to Ollama server at " +:+ url +:+ ": ") err))
  | inr (status, _) =>
      if decide (status ≠ 200%Z) then
        mkInit touched o
          (Some (errorString ("ollama server at " +:+ url +:+
                              " returned status " +:+ pretty status)))
      else mkInit touched o None
  end.

Definition GetModelName (o : OllamaClient) : string := selectedModel o.

(** The reply to the POST on [/api/chat]: the status, the body as
    [io.ReadAll] reads it, and the body as [json.Decoder] decodes it chunk
    by chunk. *)
Record Response : Type := mkHTTP {
  StatusCode : Z;
  Body : string;
  Chunks : Stream OllamaResponse
}.

(** The outside of one call of [SendMessage]. *)
Record Exchange : Type := mkExchange {
  marshal : option error;        (* the error of [json.Marshal], if any *)
  post : error + Response;       (* [httpClient.Post] *)
  since : Duration               (* [time.Since(start)] *)
}.

(** The [for] loop of [SendMessage], lines 175-196. *)
Fixpoint receive (chunks : list OllamaResponse) (closing : error)
    (fullResponse : string) : LoopExit :=
  match chunks with
  | [] =>
      if is_io_EOF closing then Break fullResponse
      else Abort fullResponse closing
  | ollamaResp :: rest =>
      let contentChunk := Content (Message ollamaResp) in
      let fullResponse := fullResponse +:+ contentChunk in
      if Done ollamaResp then Break fullResponse
      else receive rest closing fullResponse
  end.

Definition append (o : OllamaClient) (m : OllamaMessage) : OllamaClient :=
  mkClient (serverURL o) (messages o ++ [m]) (selectedModel o) (httpClient o).

Definition SendMessage (o : OllamaClient) (message : string) (x : Exchange)
    : Outcome OllamaClient :=
  let o := append o (mkMessage UserRole message) in
  match marshal x with
  | Some err =>
      Return o "" 0%Z (Some (Errorf_w "failed to marshal request: " err))
  | None =>
      match httpClient o, post x with
      | None, _ => Panic               (* [Post] on a nil [*http.Client] *)
      | Some _, inl err =>
          Return o "" 0%Z (Some (Errorf_w "failed to send request: " err))
      | Some _, inr resp =>
          if decide (StatusCode resp ≠ 200%Z) then
            Return o "" 0%Z
              (Some (errorString ("API request failed (" +:+
                       pretty (StatusCode resp) +:+ "): " +:+ Body resp)))
          else
            match receive (frames (Chunks resp)) (closing (Chunks resp)) "" with
            | Abort partial err =>
                Return o partial (since x)
                  (Some (Errorf_w "failed to decode response: " err))
            | Break finalResponseStr =>
                Return (append o (mkMessage AssistantRole finalResponseStr))
                  finalResponseStr (since x) None
            | LoopPanic => Panic
            end
      end
  end.

End Ollama.

(** ** internal/utils/validation.go *)

(** [ValidateAPIKey]: not empty, at least 20 bytes, every rune a letter, a
    digit or one of [-], [_], [.], and for "openai" the prefix "sk-". *)
Definition ValidateAPIKey (w : World) (key provider : string) : bool :=
  if decide (key = "") then false
  else if decide (String.length key < 20) then false
  else if negb (forallb
                  (fun c => unicode_IsLetter w c || unicode_IsDigit w c
                            || bool_decide (c = 45%Z) || bool_decide (c = 95%Z)
                            || bool_decide (c = 46%Z))
                  (runes w key)) then false
  else if decide (provider = "openai") then
    if bool_decide (3 <= String.length key)
       && negb (String.eqb (String.substring 0 3 key) "sk-")
    then false else true
  else true.

(** ** github.com/sashabaranov/go-openai, as far as the adapters use it *)

Module openai.

Record ChatCompletionMessage : Type := mkMessage {
  Role : string;
  Content : string
}.

(** A choice of a stream event; [Delta_Content] is [Delta.Content]. *)
Record ChatCompletionStreamChoice : Type := mkChoice {
  Delta_Content : string
}.

Record ChatCompletionStreamResponse : Type := mkEvent {
  Choices : list ChatCompletionStreamChoice
}.

Record Client : Type := mkClient {
  BaseURL : string;
  authToken : string
}.

(** [openai.DefaultConfig(apiKey).BaseURL] *)
Definition defaultBaseURL : string := "https://api.openai.com/v1".

End openai.

(** ** The three adapters built on go-openai

    [OpenAIClient], [GroqClient] and [TogetherClient] have the same fields,
    and the [for] loop of their [SendMessage] is the same text (openai.go
    125-143, groq.go 124-142, the Together file 125-143). *)

Module SSE.

Record Adapter : Type := mkAdapter {
  client : option openai.Client;       (* nil until [Initialize] *)
  messages : list openai.ChatCompletionMessage;
  selectedModel : string
}.

Definition zero : Adapter := mkAdapter None [] "".

(** The outside of one call of [SendMessage]. *)
Record Exchange : Type := mkExchange {
  (* [client.CreateChatCompletionStream] *)
  create : error + Stream openai.ChatCompletionStreamResponse;
  since : Duration                     (* [time.Since(start)] *)
}.

Fixpoint receive (events : list openai.ChatCompletionStreamResponse)
    (closing : error) (fullResponse : string) : LoopExit :=
  match events with
  | [] =>
      if is_io_EOF closing || strings_Contains (Error closing) "EOF"
      then Break fullResponse
      else Abort fullResponse closing
  | response :: rest =>
      if decide (0 < length (openai.Choices response)) then
        match openai.Choices response !! 0 with
        | Some choice =>
            receive rest closing (fullResponse +:+ openai.Delta_Content choice)
        | None => LoopPanic                (* index out of range *)
        end
      else receive rest closing fullResponse
  end.

Definition append (a : Adapter) (m : openai.ChatCompletionMessage) : Adapter :=
  mkAdapter (client a) (messages a ++ [m]) (selectedModel a).

(** From the end of the loop to the [return]. *)
Definition finish (a : Adapter) (x : Exchange) (exit : LoopExit)
    : Outcome Adapter :=
  match exit with
  | Abort partial err =>
      Return a partial (since x) (Some (Errorf_w "stream error: " err))
  | Break finalResponseStr =>
      Return (append a (openai.mkMessage AssistantRole finalResponseStr))
        finalResponseStr (since x) None
  | LoopPanic => Panic
  end.

End SSE.

(** ** internal/providers/openai.go *)

Module OpenAI.

Definition openaiModels : gmap string string :=
  list_to_map [("gpt-4.1-nano", "gpt-4.1-nano")].

Definition Initialize (w : World) (o : SSE.Adapter) : Init SSE.Adapter :=
  let apiKey := os_Getenv (env w) "OPENAI_API_KEY" in
  if decide (apiKey = "") then
    mkInit [] o (Some (errorString "OPENAI_API_KEY env var not set"))
  else if negb (ValidateAPIKey w apiKey "openai") then
    mkInit [] o (Some (errorString "OPENAI_API_KEY appears invalid"))
  else
    let modelEnv := os_Getenv (env w) "OPENAI_MODEL" in
    let model := map_index openaiModels modelEnv in
    let model :=
      if decide (model = "") then map_index openaiModels "gpt-4.1-nano"
      else model in
    mkInit [NewOpenAIClient openai.defaultBaseURL apiKey]
      (SSE.mkAdapter (Some (openai.mkClient openai.defaultBaseURL apiKey))
         [openai.mkMessage SystemRole systemPrompt] model)
      None.

Definition GetModelName (o : SSE.Adapter) : string := SSE.selectedModel o.

Definition SendMessage (o : SSE.Adapter) (message : string) (x : SSE.Exchange)
    : Outcome SSE.Adapter :=
  let o := SSE.append o (openai.mkMessage UserRole message) in
  match SSE.client o with
  | None => Panic                      (* method call on a nil client *)
  | Some _ =>
      match SSE.create x with
      | inl err =>
          let errMsg :=
            match err with
            | APIError status code msg _ =>
                "OpenAI API error (" +:+ pretty status +:+ "): " +:+ code
                  +:+ " - " +:+ msg
            | _ => "failed to create stream: " +:+ Error err
            end in
          Return o "" 0%Z (Some (errorString errMsg))
      | inr stream =>
          SSE.finish o x (SSE.receive (frames stream) (closing stream) "")
      end
  end.

End OpenAI.

(** ** internal/providers/groq.go *)

Module Groq.

Definition groqModels : gmap string string :=
  list_to_map [("gemma", "gemma2-9b-it")].

Definition baseURL : string := "https://api.groq.com/openai/v1".

Definition Initialize (w : World) (g : SSE.Adapter) : Init SSE.Adapter :=
  let apiKey := os_Getenv (env w) "GROQ_API_KEY" in
  if decide (apiKey = "") then
    mkInit [] g (Some (errorString "GROQ_API_KEY env var not set"))
  else
    let modelEnv := os_Getenv (env w) "GROQ_MODEL" in
    let model := map_index groqModels modelEnv in
    let model :=
      if decide (model = "") then map_index groqModels "gemma" else model in
    mkInit [NewOpenAIClient baseURL apiKey]
      (SSE.mkAdapter (Some (openai.mkClient baseURL apiKey))
         [openai.mkMessage SystemRole systemPrompt] model)
      None.

Definition GetModelName (g : SSE.Adapter) : string := SSE.selectedModel g.

Definition SendMessage (g : SSE.Adapter) (message : string) (x : SSE.Exchange)
    : Outcome SSE.Adapter :=
  let g := SSE.append g (openai.mkMessage UserRole message) in
  match SSE.client g with
  | None => Panic
  | Some _ =>
      match SSE.create x with
      | inl err =>
          Return g "" 0%Z (Some (Errorf_v "failed to create stream: " err))
      | inr stream =>
          SSE.finish g x (SSE.receive (frames stream) (closing stream) "")
      end
  end.

End Groq.

(** ** The Together adapter (a source file whose name is not known) *)

Module Together.

Definition togetherModels : gmap string string :=
  list_to_map [
    ("llama-70b", "meta-llama/Llama-3.3-70B-Instruct-Turbo-Free");
    ("deepseek", "deepseek-ai/DeepSeek-R1-Distill-Llama-70B-free")
  ].

Definition baseURL : string := "https://api.together.xyz/v1".

Definition Initialize (w : World) (t : SSE.Adapter) : Init SSE.Adapter :=
  let apiKey := os_Getenv (env w) "TOGETHER_API_KEY" in
  if decide (apiKey = "") then
    mkInit [] t (Some (errorString "TOGETHER_API_KEY env var not set"))
  else
    let modelEnv := os_Getenv (env w) "TOGETHER_MODEL" in
    let model := map_index togetherModels modelEnv in
    let model :=
      if decide (model = "") then map_index togetherModels "llama-70b"
      else model in
    mkInit [NewOpenAIClient baseURL apiKey]
      (SSE.mkAdapter (Some (openai.mkClient baseURL apiKey))
         [openai.mkMessage SystemRole systemPrompt] model)
      None.

Definition GetModelName (t : SSE.Adapter) : string := SSE.selectedModel t.

Definition SendMessage (t : SSE.Adapter) (message : string) (x : SSE.Exchange)
    : Outcome SSE.Adapter :=
  let t := SSE.append t (openai.mkMessage UserRole message) in
  match SSE.client t with
  | None => Panic
  | Some _ =>
      match SSE.create x with
      | inl err =>
          Return t "" 0%Z (Some (Errorf_v "failed to create stream: " err))
      | inr stream =>
          SSE.finish t x (SSE.receive (frames stream) (closing stream) "")
      end
  end.

End Together.

(** ** github.com/google/generative-ai-go/genai, as far as the adapter uses it *)

Module genai.

(** [genai.Part] is an interface; [Text] is the only implementation the
    adapter's type assertion accepts. *)
Inductive Part : Type :=
| Text (s : string)
| Blob (MIMEType Data : string).

Record Content : Type := mkContent {
  Parts : list Part;
  Role : string
}.

(** [Candidate.Content] is a [*Content] and can be nil. *)
Record Candidate : Type := mkCandidate {
  CandidateContent : option Content
}.

Record GenerateContentResponse : Type := mkResponse {
  Candidates : list Candidate
}.

Record GenerativeModel : Type := mkModel {
  name : string
}.

End genai.

(** ** internal/providers/gemini.go *)

Module Gemini.

Definition geminiModels : gmap string string :=
  list_to_map [
    ("gemini-pro", "gemini-2.5-pro-exp-03-25");
    ("gemini-flash", "gemini-2.5-flash-preview-04-17");
    ("gemini-flash-lite", "gemini-2.0-flash-lite")
  ].

Record GeminiClient : Type := mkClient {
  client : option string;              (* nil, or a client for this key *)
  model : option genai.GenerativeModel;
  messages : list genai.Content;
  selectedModel : string
}.

Definition zero : GeminiClient := mkClient None None [] "".

Definition Initialize (w : World) (g : GeminiClient) : Init GeminiClient :=
  let apiKey := os_Getenv (env w) "GEMINI_API_KEY" in
  if decide (apiKey = "") then
    mkInit [] g (Some (errorString "GEMINI_API_KEY env var not set"))
  else
    match genaiNewClient w apiKey with
    | Some err =>
        mkInit [NewGenaiClient apiKey] g
          (Some (Errorf_w "failed to create Gemini client: " err))
    | None =>
        let modelEnv := os_Getenv (env w) "GEMINI_MODEL" in
        let selected := map_index geminiModels modelEnv in
        let selected :=
          if decide (selected = "")
          then map_index geminiModels "gemini-flash-lite" else selected in
        mkInit [NewGenaiClient apiKey]
          (mkClient (Some apiKey) (Some (genai.mkModel selected)) [] selected)
          None
    end.

Definition GetModelName (g : GeminiClient) : string := selectedModel g.

(** The outside of one call of [SendMessage]: what [iter.Next()] yields. *)
Record Exchange : Type := mkExchange {
  reply : Stream genai.GenerateContentResponse;
  since : Duration
}.

(** The inner [for ... range ...Parts]; [None] when the type assertion
    [part.(genai.Text)] panics. *)
Fixpoint collect (parts : list genai.Part) (fullResponse : string)
    : option string :=
  match parts with
  | [] => Some fullResponse
  | genai.Text chunkStr :: rest => collect rest (fullResponse +:+ chunkStr)
  | genai.Blob _ _ :: _ => None
  end.

(** The outer [for] loop, lines 138-156. *)
Fixpoint receive (resps : list genai.GenerateContentResponse)
    (closing : error) (fullResponse : string) : LoopExit :=
  match resps with
  | [] =>
      if is_iterator_Done closing then Break fullResponse
      else Abort fullResponse closing
  | resp :: rest =>
      match genai.Candidates resp !! 0 with
      | None => LoopPanic                (* index out of range *)
      | Some candidate =>
          match genai.CandidateContent candidate with
          | None => LoopPanic            (* nil pointer dereference *)
          | Some content =>
              match collect (genai.Parts content) fullResponse with
              | None => LoopPanic
              | Some fullResponse => receive rest closing fullResponse
              end
          end
      end
  end.

Definition append (g : GeminiClient) (m : genai.Content) : GeminiClient :=
  mkClient (client g) (model g) (messages g ++ [m]) (selectedModel g).

Definition SendMessage (g : GeminiClient) (message : string) (x : Exchange)
    : Outcome GeminiClient :=
  let g := append g (genai.mkContent [genai.Text message] "user") in
  match model g with
  | None => Panic                      (* a chat on a nil model *)
  | Some _ =>
      match receive (frames (reply x)) (closing (reply x)) "" with
      | Abort partial err =>
          Return g partial (since x) (Some (Errorf_w "stream error: " err))
      | Break finalResponseStr =>
          Return
            (append g (genai.mkContent [genai.Text finalResponseStr] "assistant"))
            finalResponseStr (since x) None
      | LoopPanic => Panic
      end
  end.

End Gemini.

(** ** The SambaNova adapter (a source file whose name is not known) *)

Module Samba.

Definition sambaModels : gmap string string :=
  list_to_map [("llama-70b", "Meta-Llama-3.3-70B-Instruct")].

Record Message : Type := mkMessage {
  Role : string;
  Content : string
}.

(** An element of [ChatCompletionResponse.Choices]; [Message_Content] is
    [Message.Content]. *)
Record Choice : Type := mkChoice {
  Message_Content : string
}.

Record ChatCompletionResponse : Type := mkCompletion {
  Choices : list Choice
}.

Record SambaClient : Type := mkClient {
  apiKey : string;
  baseURL : string;
  messages : list Message;
  selectedModel : string;
  httpClient : option Z
}.

Definition zero : SambaClient := mkClient "" "" [] "" None.

Definition Initialize (w : World) (s : SambaClient) : Init SambaClient :=
  let key := os_Getenv (env w) "SAMBA_API_KEY" in
  if decide (key = "") then
    mkInit []
      (mkClient key (baseURL s) (messages s) (selectedModel s) (httpClient s))
      (Some (errorString "SAMBA_API_KEY env var not set"))
  else
    let modelEnv := os_Getenv (env w) "SAMBA_MODEL" in
    let selected := map_index sambaModels modelEnv in
    let selected :=
      if decide (selected = "") then map_index sambaModels "llama-70b"
      else selected in
    mkInit [NewHTTPClient 60]
      (mkClient key "https://api.sambanova.ai/v1" (messages s) selected
         (Some 60%Z))
      None.

Definition GetModelName (s : SambaClient) : string := selectedModel s.

(** The reply to the POST: the status, the body [io.ReadAll] returned and
    what [json.Unmarshal] makes of that body. *)
Record Response : Type := mkHTTP {
  StatusCode : Z;
  Body : string;
  Unmarshal : error + ChatCompletionResponse
}.

(** The outside of one call of [SendMessage]. *)
Record Exchange : Type := mkExchange {
  marshal : option error;        (* the error of [json.Marshal], if any *)
  newRequest : option error;     (* of [http.NewRequestWithContext] *)
  do : error + Response;         (* [httpClient.Do] *)
  deadlineExceeded : bool;       (* [ctx.Err() == context.DeadlineExceeded] *)
  since : Duration               (* [time.Since(start)] *)
}.

Definition commit (s : SambaClient) (ms : list Message) : SambaClient :=
  mkClient (apiKey s) (baseURL s) ms (selectedModel s) (httpClient s).

Definition SendMessage (s : SambaClient) (message : string) (x : Exchange)
    : Outcome SambaClient :=
  let currentMessages := messages s ++ [mkMessage UserRole message] in
  match marshal x with
  | Some err =>
      Return s "" 0%Z (Some (Errorf_w "failed to marshal request: " err))
  | None =>
  match newRequest x with
  | Some err =>
      Return s "" 0%Z (Some (Errorf_w "failed to create request: " err))
  | None =>
  match httpClient s, do x with
  | None, _ => Panic                   (* [Do] on a nil [*http.Client] *)
  | Some _, inl err =>
      if deadlineExceeded x then
        Return s "" 0%Z (Some (errorString "request timed out after 90s"))
      else
        Return s "" 0%Z (Some (Errorf_w "failed to send request: " err))
  | Some _, inr resp =>
      if decide (StatusCode resp ≠ 200%Z) then
        Return s "" 0%Z
          (Some (errorString ("API request failed (" +:+
                   pretty (StatusCode resp) +:+ "): " +:+ Body resp)))
      else
        match Unmarshal resp with
        | inl err =>
            Return s "" 0%Z
              (Some (Errorf_w "failed to decode response: " err))
        | inr completionResp =>
            (* len(Choices) == 0 || Choices[0].Message.Content == "" *)
            match Choices completionResp with
            | [] => Return s "" (since x) None
            | first :: _ =>
                let content := Message_Content first in
                if decide (content = "") then Return s "" (since x) None
                else
                  Return
                    (commit s
                       (currentMessages ++ [mkMessage AssistantRole content]))
                    content (since x) None
            end
        end
  end end end.

End Samba.

(** ** internal/providers/interface.go and internal/cli: the factory *)

(** A value of the interface type [providers.ChatInterface]: one of the six
    concrete adapters, tagged with its dynamic type. *)
Inductive ChatInterface : Type :=
| TogetherClient (t : SSE.Adapter)
| OllamaClient (o : Ollama.OllamaClient)
| GroqClient (g : SSE.Adapter)
| SambaClient (s : Samba.SambaClient)
| OpenAIClient (o : SSE.Adapter)
| GeminiClient (g : Gemini.GeminiClient).

Definition lift {C : Type} (tag : C -> ChatInterface) (r : Init C)
    : Init ChatInterface :=
  mkInit (trace r) (tag (self r)) (failure r).

(** [client.Initialize()] through the interface. *)
Definition Initialize (w : World) (c : ChatInterface) : Init ChatInterface :=
  match c with
  | TogetherClient t => lift TogetherClient (Together.Initialize w t)
  | OllamaClient o => lift OllamaClient (Ollama.Initialize w o)
  | GroqClient g => lift GroqClient (Groq.Initialize w g)
  | SambaClient s => lift SambaClient (Samba.Initialize w s)
  | OpenAIClient o => lift OpenAIClient (OpenAI.Initialize w o)
  | GeminiClient g => lift GeminiClient (Gemini.Initialize w g)
  end.

(** [client.GetModelName()] through the interface. *)
Definition GetModelName (c : ChatInterface) : string :=
  match c with
  | TogetherClient t => Together.GetModelName t
  | OllamaClient o => Ollama.GetModelName o
  | GroqClient g => Groq.GetModelName g
  | SambaClient s => Samba.GetModelName s
  | OpenAIClient o => OpenAI.GetModelName o
  | GeminiClient g => Gemini.GetModelName g
  end.

(** [type Provider string] and its six constants. *)
Definition Provider : Type := string.
Definition ProviderTogether : Provider := "together".
Definition ProviderOllama : Provider := "ollama".
Definition ProviderGroq : Provider := "groq".
Definition ProviderSamba : Provider := "samba".
Definition ProviderOpenAI : Provider := "openai".
Definition ProviderGemini : Provider := "gemini".

(** What [CreateChatClient] returns, [(nil, err)] or [(client, nil)], with
    the outside resources touched on the way. *)
Record Created : Type := mkCreated {
  touched : list Effect;
  result : error + ChatInterface
}.

(** [err = client.Initialize()] followed by the common tail of
    [CreateChatClient]: [if err != nil { return nil, err }], else the
    client. *)
Definition initialized (w : World) (c : ChatInterface) : Created :=
  let r := Initialize w c in
  match failure r with
  | Some err => mkCreated (trace r) (inl err)
  | None => mkCreated (trace r) (inr (self r))
  end.

Definition CreateChatClient (w : World) (provider : Provider) : Created :=
  if decide (provider = ProviderTogether) then
    if decide (os_Getenv (env w) "TOGETHER_API_KEY" ≠ "") then
      initialized w (TogetherClient SSE.zero)
    else
      mkCreated []
        (inl (errorString "TOGETHER_API_KEY not set for Together provider"))
  else if decide (provider = ProviderGroq) then
    if decide (os_Getenv (env w) "GROQ_API_KEY" ≠ "") then
      initialized w (GroqClient SSE.zero)
    else
      mkCreated [] (inl (errorString "GROQ_API_KEY not set for Groq provider"))
  else if decide (provider = ProviderSamba) then
    if decide (os_Getenv (env w) "SAMBA_API_KEY" ≠ "") then
      initialized w (SambaClient Samba.zero)
    else
      mkCreated [] (inl (errorString "SAMBA_API_KEY not set for Samba provider"))
  else if decide (provider = ProviderOpenAI) then
    if decide (os_Getenv (env w) "OPENAI_API_KEY" ≠ "") then
      initialized w (OpenAIClient SSE.zero)
    else
      mkCreated []
        (inl (errorString "OPENAI_API_KEY not set for OpenAI provider"))
  else if decide (provider = ProviderGemini) then
    if decide (os_Getenv (env w) "GEMINI_API_KEY" ≠ "") then
      initialized w (GeminiClient Gemini.zero)
    else
      mkCreated []
        (inl (errorString "GEMINI_API_KEY not set for Gemini provider"))
  else if decide (provider = ProviderOllama) then
    initialized w (OllamaClient Ollama.zero)
  else
    mkCreated [] (inl (errorString ("unsupported provider: " +:+ provider))).

(** ** internal/utils/security.go *)

(** [RedactAPIKey]: the first four and the last four bytes of a key of at
    least eight bytes, a fixed text for a shorter one. *)
Definition RedactAPIKey (key : string) : string :=
  if decide (String.length key < 8) then "[REDACTED_KEY]"
  else
    String.substring 0 4 key +:+ "..." +:+
    String.substring (String.length key - 4) 4 key.

(** ** Go's text functions that depend on Unicode tables

    [strings.ToLower] and [strings.Fields] are taken as given. *)
Record GoText : Type := mkGoText {
  strings_ToLower : string -> string;
  strings_Fields : string -> list string
}.

(** [strings.ContainsAny(s, chars)] for [chars] made of ASCII characters:
    some byte of [s] is one of them. *)
Fixpoint strings_ContainsAny (s chars : string) : bool :=
  match s with
  | EmptyString => false
  | String a rest =>
      strings_Contains chars (String a EmptyString)
      || strings_ContainsAny rest chars
  end.

(** ** internal/assessment/assess.go *)

Module assessment.

Record AssessmentResult : Type := mkResult {
  Name : string;
  Score : Z;
  Rating : string;
  Description : string;
  Recommendation : string
}.

Record PromptAssessment : Type := mkAssessment {
  Criteria : gmap string AssessmentResult;
  TotalScore : Z;
  OverallRating : string
}.

Definition ScoreLabels : gmap Z string :=
  list_to_map [
    (1%Z, "Poor"); (2%Z, "Needs Improvement"); (3%Z, "Average");
    (4%Z, "Good"); (5%Z, "Excellent")
  ].

(** [ScoreLabels[score]] *)
Definition label (score : Z) : string := default "" (ScoreLabels !! score).

(** A result with the given score, its label and no recommendation. *)
Definition scored (name : string) (score : Z) (description : string)
    : AssessmentResult :=
  mkResult name score (label score) description "".

(** The same with a recommendation. *)
Definition advised (name : string) (score : Z)
    (description recommendation : string) : AssessmentResult :=
  mkResult name score (label score) description recommendation.

Definition containsAny (t : GoText) (text : string) (words : list string)
    : bool :=
  let lowercaseText := strings_ToLower t text in
  existsb (fun word => strings_Contains lowercaseText word) words.

Definition taskWords : list string :=
  ["write"; "explain"; "generate"; "describe"; "list"; "summarize";
   "create"; "analyze"; "compare"; "evaluate"].

Definition evaluateClarity (t : GoText) (text : string) (wordCount : Z)
    : AssessmentResult :=
  if decide (String.length text < 5) then
    scored "Clarity" 1 "The prompt is too short to be clear."
  else if decide (String.length text < 15) then
    scored "Clarity" 2 "The prompt is vague or incomplete."
  else if negb (strings_ContainsAny text ".?!") then
    scored "Clarity" 2 "The prompt lacks proper structure or punctuation."
  else if decide (String.length text < 40) then
    scored "Clarity" 3
      "The prompt is moderately clear but could be more detailed."
  else if negb (strings_Contains (strings_ToLower t text) "please")
          && negb (strings_Contains (strings_ToLower t text) "could you") then
    scored "Clarity" 4 "The prompt is clear but could be more polite."
  else
    scored "Clarity" 5 "The prompt is clear, specific, and easy to understand.".

Definition evaluateRelevance (t : GoText) (text : string) (wordCount : Z)
    : AssessmentResult :=
  if decide (String.length text < 3) then
    scored "Relevance" 1 "The prompt is too short to determine relevance."
  else if decide (String.length text < 10) then
    scored "Relevance" 2 "The prompt is too brief to be sufficiently relevant."
  else if bool_decide (String.length text < 30)
          && negb (strings_ContainsAny text ",-+") then
    scored "Relevance" 3
      "The prompt has moderate relevance but lacks specific details."
  else if decide (String.length text < 60) then
    scored "Relevance" 4 "The prompt is relevant but could be more focused."
  else
    scored "Relevance" 5 "The prompt is highly relevant to a specific task.".

Definition evaluateSpecificity (t : GoText) (text : string) (wordCount : Z)
    : AssessmentResult :=
  let hasTask := containsAny t text taskWords in
  if negb hasTask then
    if decide (String.length text < 15) then
      advised "Specificity" 1
        "The prompt lacks any specific task or direction."
        "Include a clear action verb (e.g., explain, describe, list)."
    else
      advised "Specificity" 2 "The prompt lacks a clear directive."
        "Be explicit about what you want (e.g., 'analyze this code')."
  else if negb (strings_ContainsAny text ".,;:") then
    advised "Specificity" 3 "The prompt has a task but lacks structure."
      "Add more details and proper punctuation."
  else if bool_decide (String.length text < 50)
          && negb (strings_Contains text "for example")
          && negb (strings_Contains text "such as") then
    advised "Specificity" 4
      "The prompt is specific but could include examples."
      "Consider adding examples to clarify intent."
  else
    scored "Specificity" 5 "The prompt is very specific and well-defined.".

Definition evaluateContext (t : GoText) (text : string) (wordCount : Z)
    : AssessmentResult :=
  if decide (wordCount < 5)%Z then
    advised "Context" 1 "No context provided at all."
      "Add background information about your request."
  else if bool_decide (wordCount < 10)%Z
          && negb (strings_Contains text "because")
          && negb (strings_Contains text "about") then
    advised "Context" 2 "Minimal context provided."
      "Add relevant background details about the subject."
  else if bool_decide (wordCount < 20)%Z
          && negb (strings_Contains text "since")
          && negb (strings_Contains text "given") then
    advised "Context" 3 "Some context provided but could be more detailed."
      "Expand on the background or situation."
  else if decide (wordCount < 40)%Z then
    advised "Context" 4
      "Good context provided but could be more comprehensive."
      "Consider adding more specific details."
  else
    scored "Context" 5 "Rich context is provided with background information.".

Definition evaluateRichness (t : GoText) (text : string) (wordCount : Z)
    : AssessmentResult :=
  if decide (wordCount < 5)%Z then
    advised "Richness" 1 "The prompt is too minimal to provide richness."
      "Expand your prompt substantially with details."
  else if bool_decide (wordCount < 15)%Z
          && negb (strings_Contains text "like")
          && negb (strings_Contains text "example") then
    advised "Richness" 2 "The prompt lacks depth and examples."
      "Add examples or descriptive details."
  else if bool_decide (wordCount < 30)%Z
          && negb (strings_Contains text "detailed")
          && negb (strings_Contains text "specific") then
    advised "Richness" 3
      "The prompt has moderate richness but could be enhanced."
      "Add more descriptive elements or constraints."
  else if decide (wordCount < 50)%Z then
    advised "Richness" 4
      "The prompt has good richness but could be more elaborate."
      "Consider adding more nuanced details."
  else
    scored "Richness" 5
      "The prompt is rich with details and encourages creativity.".

Definition roleWords : list string :=
  ["as a"; "like a"; "act as"; "you are"; "pretend"; "role"; "expert"].

Definition evaluatePersona (t : GoText) (text : string) (wordCount : Z)
    : AssessmentResult :=
  let hasPersona := containsAny t text roleWords in
  if negb hasPersona then
    advised "Persona" 2 "No specific role guidance provided."
      "Specify the role you want the AI to take (e.g., 'You are an expert coder')."
  else if negb (strings_Contains (strings_ToLower t text) "expert")
          && negb (strings_Contains (strings_ToLower t text) "professional") then
    advised "Persona" 3 "A basic role is defined but lacks expertise level."
      "Specify the expertise level (e.g., 'as an expert scientist')."
  else if negb (strings_Contains (strings_ToLower t text) "perspective") then
    advised "Persona" 4
      "A good role is defined but lacks perspective guidance."
      "Consider specifying the perspective to take."
  else
    scored "Persona" 5 "A clear, specific role or persona is well-defined.".

Definition evaluateInstruction (t : GoText) (text : string) (wordCount : Z)
    : AssessmentResult :=
  let hasTask := containsAny t text taskWords in
  if negb hasTask && bool_decide (wordCount < 10)%Z then
    scored "Instruction" 1 "No clear task or instruction provided."
  else if negb hasTask then
    scored "Instruction" 2 "The task is implied but not explicitly stated."
  else if negb (strings_ContainsAny text ".,;:") then
    scored "Instruction" 3 "A basic task is provided but lacks structure."
  else if negb (strings_Contains text "step")
          && negb (strings_Contains text "first")
          && negb (strings_Contains text "then") then
    scored "Instruction" 4
      "The task is clear but could benefit from sequencing."
  else
    scored "Instruction" 5 "The task is extremely well-defined and specific.".

Definition formatWords : list string :=
  ["list"; "table"; "paragraph"; "json"; "bullet"; "code block";
   "format"; "style"; "markdown"].

Definition evaluateFormat (t : GoText) (text : string) (wordCount : Z)
    : AssessmentResult :=
  let hasFormat := containsAny t text formatWords in
  if negb hasFormat then
    advised "Format" 2 "No output format specified."
      "Specify the desired format (e.g., bullet points, table)."
  else if negb (strings_Contains (strings_ToLower t text) "detailed")
          && negb (strings_Contains (strings_ToLower t text) "brief") then
    advised "Format" 3
      "A format is mentioned but lacks detail about length or depth."
      "Specify whether you want a detailed or brief response."
  else if negb (strings_Contains (strings_ToLower t text) "example") then
    advised "Format" 4
      "The format is well-specified but lacks example structure."
      "Consider providing an example of the structure you want."
  else
    scored "Format" 5
      "The output format is precisely specified with clear structure.".

Definition audienceWords : list string :=
  ["for "; "to "; "beginners"; "experts"; "students"; "tutorial";
   "audience"; "reader"; "user"].

Definition evaluateAudience (t : GoText) (text : string) (wordCount : Z)
    : AssessmentResult :=
  let hasAudience := containsAny t text audienceWords in
  if negb hasAudience then
    advised "Audience" 2 "No target audience specified."
      "Define who this is for (e.g., 'for a 12-year-old')."
  else if negb (strings_Contains (strings_ToLower t text) "level")
          && negb (strings_Contains (strings_ToLower t text) "background") then
    advised "Audience" 3
      "An audience is mentioned but their knowledge level is unclear."
      "Specify the audience's knowledge level."
  else if negb (strings_Contains (strings_ToLower t text) "familiar")
          && negb (strings_Contains (strings_ToLower t text) "understand") then
    advised "Audience" 4
      "The audience is well-defined but their familiarity with the topic is unclear."
      "Specify how familiar the audience is with the topic."
  else
    scored "Audience" 5
      "The target audience is precisely defined with clear adaptation guidance.".

Definition toneWords : list string :=
  ["formal"; "casual"; "friendly"; "professional"; "encouraging";
   "tone"; "style"; "voice"; "simple"; "technical"].

Definition evaluateTone (t : GoText) (text : string) (wordCount : Z)
    : AssessmentResult :=
  let hasTone := containsAny t text toneWords in
  if negb hasTone then
    advised "Tone" 2 "No tone specification."
      "Define the tone (e.g., 'in a friendly tone')."
  else if negb (strings_Contains (strings_ToLower t text) "level")
          && negb (strings_Contains (strings_ToLower t text) "very") then
    advised "Tone" 3 "A tone is mentioned but its intensity is unclear."
      "Specify how formal/casual the tone should be."
  else if negb (strings_Contains (strings_ToLower t text) "example") then
    advised "Tone" 4 "The tone is well-specified but lacks an example."
      "Consider providing an example of the desired tone."
  else
    scored "Tone" 5
      "The desired tone is precisely specified with clear guidance.".

Definition evaluateData (t : GoText) (text : string) (wordCount : Z)
    : AssessmentResult :=
  if decide (wordCount < 5)%Z then
    advised "Data" 1 "No data or information provided at all."
      "Include specific information or examples."
  else if bool_decide (wordCount < 10)%Z
          && negb (strings_Contains text "example")
          && negb (strings_Contains text "data") then
    advised "Data" 2 "Very little information provided."
      "Add key information or examples related to the task."
  else if bool_decide (wordCount < 30)%Z
          && negb (strings_Contains text "detail") then
    advised "Data" 3 "Some data provided but could be more comprehensive."
      "Include more specific details or examples."
  else if negb (strings_Contains text "context")
          && bool_decide (wordCount < 70)%Z then
    advised "Data" 4 "Good data provided but could be more contextualized."
      "Add more context to your data."
  else
    scored "Data" 5
      "The prompt includes comprehensive relevant data and examples.".

(** The sum of the scores of a map of results. *)
Definition totalPoints (criteria : gmap string AssessmentResult) : Z :=
  map_fold (fun _ result total => (total + Score result)%Z) 0%Z criteria.

(** [calculateOverallScore]; [None] when the map is empty and the integer
    division by [maxPoints] panics. *)
Definition calculateOverallScore (criteria : gmap string AssessmentResult)
    : option (Z * string) :=
  let maxPoints := (Z.of_nat (size criteria) * 5)%Z in
  if decide (maxPoints = 0%Z) then None
  else
    let percentageScore := ((totalPoints criteria * 100) `quot` maxPoints)%Z in
    let rating :=
      if decide (90 <= percentageScore)%Z then "Excellent"
      else if decide (75 <= percentageScore)%Z then "Very Good"
      else if decide (60 <= percentageScore)%Z then "Good"
      else if decide (40 <= percentageScore)%Z then "Average"
      else if decide (25 <= percentageScore)%Z then "Needs Improvement"
      else "Poor" in
    Some (percentageScore, rating).

(** The eleven assignments [criteria[...] = ...] of [evaluatePrompt]. *)
Definition evaluateAll (t : GoText) (text : string)
    : gmap string AssessmentResult :=
  let wordCount := Z.of_nat (length (strings_Fields t text)) in
  <["Data" := evaluateData t text wordCount]>
  (<["Tone" := evaluateTone t text wordCount]>
  (<["Audience" := evaluateAudience t text wordCount]>
  (<["Format" := evaluateFormat t text wordCount]>
  (<["Instruction" := evaluateInstruction t text wordCount]>
  (<["Persona" := evaluatePersona t text wordCount]>
  (<["Richness" := evaluateRichness t text wordCount]>
  (<["Context" := evaluateContext t text wordCount]>
  (<["Specificity" := evaluateSpecificity t text wordCount]>
  (<["Relevance" := evaluateRelevance t text wordCount]>
  (<["Clarity" := evaluateClarity t text wordCount]> ∅)))))))))).

(** [evaluatePrompt]; [None] if [calculateOverallScore] panics. *)
Definition evaluatePrompt (t : GoText) (text : string)
    : option PromptAssessment :=
  let criteria := evaluateAll t text in
  match calculateOverallScore criteria with
  | None => None
  | Some (scorePercentage, overallRating) =>
      Some (mkAssessment criteria scorePercentage overallRating)
  end.

Definition EvaluatePromptForHistory (t : GoText) (text : string)
    : option PromptAssessment :=
  evaluatePrompt t text.

End assessment.

(** ** The history package (a source file whose name is not known) *)

Module history.

Record CriteriaResult : Type := mkCriteria {
  Score : Z;
  Rating : string;
  Description : string
}.

Record Assessment : Type := mkAssessment {
  OverallScore : Z;
  OverallRating : string;
  CriteriaScores : gmap string CriteriaResult
}.

(** [Timestamp] is the reading of the clock; [TimeTaken] is the elapsed
    duration, which the source stores in seconds ([elapsed.Seconds()]). *)
Record Entry : Type := mkEntry {
  Timestamp : Z;
  Provider : string;
  ModelName : string;
  Prompt : string;
  Response : string;
  InputTokens : Z;
  OutputTokens : Z;
  TotalTokens : Z;
  TimeTaken : Duration;
  EntryAssessment : option Assessment
}.

Record History : Type := mkHistory {
  Entries : list Entry
}.

(** What the history file holds, as [json.Unmarshal] reads it: a history,
    or bytes it cannot parse.  What [json.MarshalIndent] writes for a
    history is read back as that history. *)
Inductive FileContent : Type :=
| Encoded (h : History)
| Garbled (parseError : error).

(** The file system as the package meets it: the result of each call that
    can fail, and the history file, absent or with its content. *)
Record Store : Type := mkStore {
  userHomeDir : error + string;        (* [os.UserHomeDir] *)
  mkdirAll : option error;             (* the error of [os.MkdirAll], if any *)
  file : option FileContent;
  readFile : option error;             (* the error of [os.ReadFile], if any *)
  marshalIndent : option error;        (* of [json.MarshalIndent], if any *)
  (* the error of [os.WriteFile], if any, with what it leaves of the file *)
  writeFile : option (error * option FileContent)
}.

Definition withFile (d : Store) (content : option FileContent) : Store :=
  mkStore (userHomeDir d) (mkdirAll d) content (readFile d) (marshalIndent d)
    (writeFile d).

(** [GetHistoryFilePath]: the components [filepath.Join] puts together. *)
Definition GetHistoryFilePath (d : Store) : error + list string :=
  match userHomeDir d with
  | inl err => inl (Errorf_w "failed to get home directory: " err)
  | inr homeDir =>
      match mkdirAll d with
      | Some err => inl (Errorf_w "failed to create directory: " err)
      | None => inr [homeDir; ".chat-cli"; "history.json"]
      end
  end.

Definition LoadHistory (d : Store) : error + History :=
  match GetHistoryFilePath d with
  | inl err => inl err
  | inr _ =>
      match file d with
      | None => inr (mkHistory [])         (* the file does not exist *)
      | Some content =>
          match readFile d with
          | Some err => inl (Errorf_w "failed to read history file: " err)
          | None =>
              match content with
              | Garbled err =>
                  inl (Errorf_w "failed to parse history file: " err)
              | Encoded h => inr h
              end
          end
      end
  end.

Definition SaveHistory (d : Store) (h : History) : Store * option error :=
  match GetHistoryFilePath d with
  | inl err => (d, Some err)
  | inr _ =>
      match marshalIndent d with
      | Some err => (d, Some (Errorf_w "failed to marshal history: " err))
      | None =>
          match writeFile d with
          | Some (err, remains) =>
              (withFile d remains,
               Some (Errorf_w "failed to write history file: " err))
          | None => (withFile d (Some (Encoded h)), None)
          end
      end
  end.

Definition AddEntry (d : Store) (entry : Entry) : Store * option error :=
  match LoadHistory d with
  | inl err => (d, Some err)
  | inr h => SaveHistory d (mkHistory (Entries h ++ [entry]))
  end.

Definition ClearHistory (d : Store) : Store * option error :=
  SaveHistory d (mkHistory []).

(** [truncateString]; [None] when the slice [s[:maxLen-3]] panics. *)
Definition truncateString (s : string) (maxLen : Z) : option string :=
  if decide (Z.of_nat (String.length s) <= maxLen)%Z then Some s
  else if decide (maxLen - 3 < 0)%Z then None
  else Some (String.substring 0 (Z.to_nat (maxLen - 3)) s +:+ "...").

(** [ShowHistory]: the entries it prints, each with the number it prints
    before it; the text of the lines is left out. *)
Definition ShowHistory (d : Store) (count : Z)
    : error + list (Z * Entry) :=
  match LoadHistory d with
  | inl err => inl err
  | inr h =>
      let n := Z.of_nat (length (Entries h)) in
      let startIdx :=
        if bool_decide (0 < count)%Z && bool_decide (count < n)%Z
        then (n - count)%Z else 0%Z in
      inr (imap (fun i entry => ((Z.of_nat i + 1)%Z, entry))
             (drop (Z.to_nat startIdx) (Entries h)))
  end.

End history.

(** ** internal/cli, continued *)

(** [strings.Split(s, sep)] for a separator of one byte. *)
Fixpoint strings_Split (s : string) (sep : Ascii.ascii) : list string :=
  match s with
  | EmptyString => [EmptyString]
  | String a rest =>
      if Ascii.eqb a sep then EmptyString :: strings_Split rest sep
      else
        match strings_Split rest sep with
        | piece :: pieces => String a piece :: pieces
        | [] => [String a EmptyString]
        end
  end.

Definition space : Ascii.ascii := Ascii.ascii_of_nat 32.

(** The fields of [ChatOptions] but [Temperature], a floating-point number
    that the functions below do not read. *)
Record ChatOptions : Type := mkOptions {
  Verbose : bool;
  OptProvider : Provider;
  Assess : bool;
  Shell : bool;
  ShellPrompt : string;
  MaxTokens : Z;
  OutputFormat : string;
  LogLevel : string;
  LogToFile : bool;
  LogToConsole : bool;
  SkipHistory : bool
}.

(** [ProviderFlag.Set]: the flag after the call and the error. *)
Definition ProviderFlag_Set (p : Provider) (value : string)
    : Provider * option error :=
  if bool_decide
       (value ∈ [ProviderTogether; ProviderOllama; ProviderGroq;
                 ProviderSamba; ProviderOpenAI; ProviderGemini])
  then (value, None)
  else
    (p, Some (errorString "must be one of: together, ollama, groq, samba, openai")).

(** The conversion of an assessment to the format of the history. *)
Definition toHistory (a : assessment.PromptAssessment) : history.Assessment :=
  history.mkAssessment (assessment.TotalScore a) (assessment.OverallRating a)
    ((fun r => history.mkCriteria (assessment.Score r) (assessment.Rating r)
                 (assessment.Description r))
     <$> assessment.Criteria a).

(** What [sendMessageAndLogHistory] returns and leaves behind. *)
Record Logged (C : Type) : Type := mkLogged {
  client : C;
  response : string;
  elapsed : Duration;
  err : option error;
  store : history.Store
}.
Arguments mkLogged {C} _ _ _ _ _.
Arguments client {C} _.
Arguments response {C} _.
Arguments elapsed {C} _.
Arguments err {C} _.
Arguments store {C} _.

(** [sendMessageAndLogHistory], for a client of any of the adapter types:
    [SendMessage] and [GetModelName] are its methods, [x] is the outside of
    the call of [SendMessage], [now] the reading of the clock.  [None] when
    a call inside panics. *)
Definition sendMessageAndLogHistory {C X : Type}
    (SendMessage : C -> string -> X -> Outcome C) (GetModelName : C -> string)
    (t : GoText) (c : C) (text : string) (x : X) (opts : ChatOptions)
    (now : Z) (d : history.Store) : option (Logged C) :=
  match SendMessage c text x with
  | Panic => None
  | Return c response elapsed (Some err) =>
      Some (mkLogged c "" elapsed (Some err) d)
  | Return c response elapsed None =>
      if SkipHistory opts then Some (mkLogged c response elapsed None d)
      else
        let inputTokens := Z.of_nat (length (strings_Split text space)) in
        let outputTokens := Z.of_nat (length (strings_Split response space)) in
        let totalTokens := (inputTokens + outputTokens)%Z in
        let entry assessed :=
          history.mkEntry now (OptProvider opts) (GetModelName c) text
            response inputTokens outputTokens totalTokens elapsed assessed in
        let logged e :=
          Some (mkLogged c response elapsed None (history.AddEntry d e).1) in
        if Assess opts then
          match assessment.EvaluatePromptForHistory t text with
          | None => None
          | Some promptAssessment =>
              logged (entry (Some (toHistory promptAssessment)))
          end
        else logged (entry None)
  end.

(** ** Vocabulary of the statements *)

(** The name of the dynamic type of an interface value, as a provider. *)
Definition providerOf (c : ChatInterface) : Provider :=
  match c with
  | TogetherClient _ => ProviderTogether
  | OllamaClient _ => ProviderOllama
  | GroqClient _ => ProviderGroq
  | SambaClient _ => ProviderSamba
  | OpenAIClient _ => ProviderOpenAI
  | GeminiClient _ => ProviderGemini
  end.

Definition supported : list Provider :=
  [ProviderTogether; ProviderOllama; ProviderGroq; ProviderSamba;
   ProviderOpenAI; ProviderGemini].

(** The credential variable of a provider; Ollama has none. *)
Definition credentialVar (c : ChatInterface) : option string :=
  match c with
  | TogetherClient _ => Some "TOGETHER_API_KEY"
  | OllamaClient _ => None
  | GroqClient _ => Some "GROQ_API_KEY"
  | SambaClient _ => Some "SAMBA_API_KEY"
  | OpenAIClient _ => Some "OPENAI_API_KEY"
  | GeminiClient _ => Some "GEMINI_API_KEY"
  end.

(** The model-alias variable, the alias table and the default model. *)
Definition aliasVar (c : ChatInterface) : string :=
  match c with
  | TogetherClient _ => "TOGETHER_MODEL"
  | OllamaClient _ => "OLLAMA_MODEL"
  | GroqClient _ => "GROQ_MODEL"
  | SambaClient _ => "SAMBA_MODEL"
  | OpenAIClient _ => "OPENAI_MODEL"
  | GeminiClient _ => "GEMINI_MODEL"
  end.

Definition aliasTable (c : ChatInterface) : gmap string string :=
  match c with
  | TogetherClient _ => Together.togetherModels
  | OllamaClient _ => Ollama.ollamaModels
  | GroqClient _ => Groq.groqModels
  | SambaClient _ => Samba.sambaModels
  | OpenAIClient _ => OpenAI.openaiModels
  | GeminiClient _ => Gemini.geminiModels
  end.

Definition defaultModel (c : ChatInterface) : string :=
  match c with
  | TogetherClient _ => "meta-llama/Llama-3.3-70B-Instruct-Turbo-Free"
  | OllamaClient _ => "llama3:latest"
  | GroqClient _ => "gemma2-9b-it"
  | SambaClient _ => "Meta-Llama-3.3-70B-Instruct"
  | OpenAIClient _ => "gpt-4.1-nano"
  | GeminiClient _ => "gemini-2.0-flash-lite"
  end.

(** The zero value [CreateChatClient] constructs for a supported name. *)
Definition fresh (provider : Provider) : option ChatInterface :=
  if decide (provider = ProviderTogether) then Some (TogetherClient SSE.zero)
  else if decide (provider = ProviderOllama) then Some (OllamaClient Ollama.zero)
  else if decide (provider = ProviderGroq) then Some (GroqClient SSE.zero)
  else if decide (provider = ProviderSamba) then Some (SambaClient Samba.zero)
  else if decide (provider = ProviderOpenAI) then Some (OpenAIClient SSE.zero)
  else if decide (provider = ProviderGemini) then Some (GeminiClient Gemini.zero)
  else None.

(** The same world with another environment. *)
Definition withEnv (w : World) (e : gmap string string) : World :=
  mkWorld e (httpGet w) (genaiNewClient w) (unicode_IsLetter w)
    (unicode_IsDigit w) (runes w).

(** What, beyond a credential that is set, [Initialize] needs to succeed:
    for OpenAI a key [ValidateAPIKey] accepts, for Gemini a [genai.NewClient]
    that returns no error, for Ollama a probe answered with status 200. *)
Definition accepted (w : World) (c : ChatInterface) : Prop :=
  match c with
  | OpenAIClient _ =>
      ValidateAPIKey w (os_Getenv (env w) "OPENAI_API_KEY") "openai" = true
  | GeminiClient _ =>
      genaiNewClient w (os_Getenv (env w) "GEMINI_API_KEY") = None
  | _ => True
  end.

(** The concatenation of pieces of text, in order. *)
Definition joined (pieces : list string) : string :=
  foldr String.append "" pieces.

(** Whether the SSE loop takes a receive error for the end of the stream. *)
Definition takenForEOF (err : error) : bool :=
  is_io_EOF err || strings_Contains (Error err) "EOF".

(** The text of an SSE stream as the claim describes it: the delta of the
    first choice, over the events that have a choice. *)
Definition firstDelta (e : openai.ChatCompletionStreamResponse) : string :=
  match openai.Choices e with
  | c :: _ => openai.Delta_Content c
  | [] => ""
  end.

Definition deltas (events : list openai.ChatCompletionStreamResponse) : string :=
  joined
    (map firstDelta (filter (fun e => openai.Choices e ≠ []) events)).

(** The fragments of Ollama chunks, and the chunks up to and including the
    first one whose completion flag is set. *)
Definition fragments (chunks : list Ollama.OllamaResponse) : string :=
  joined (map (fun r => Ollama.Content (Ollama.Message r)) chunks).

Fixpoint throughDone (chunks : list Ollama.OllamaResponse)
    : list Ollama.OllamaResponse :=
  match chunks with
  | [] => []
  | r :: rest => if Ollama.Done r then [r] else r :: throughDone rest
  end.

(** A Gemini response the loop can read: a first candidate with content
    whose parts are all text; and the text of such responses. *)
Definition partText (p : genai.Part) : option string :=
  match p with genai.Text s => Some s | genai.Blob _ _ => None end.

Definition readable (resp : genai.GenerateContentResponse) : Prop :=
  ∃ candidate content,
    genai.Candidates resp !! 0 = Some candidate ∧
    genai.CandidateContent candidate = Some content ∧
    Forall (fun p => is_Some (partText p)) (genai.Parts content).

Definition responseText (resp : genai.GenerateContentResponse) : string :=
  match genai.Candidates resp with
  | candidate :: _ =>
      match genai.CandidateContent candidate with
      | Some content =>
          joined (omap partText (genai.Parts content))
      | None => ""
      end
  | [] => ""
  end.

Definition texts (resps : list genai.GenerateContentResponse) : string :=
  joined (map responseText resps).

(** A conversation: calls of [SendMessage] one after the other, each with
    its own outside.  The result is the final receiver and, per call, the
    returned text and error; [None] if a call panics. *)
Section Session.
Context {C X : Type} (send : C -> string -> X -> Outcome C).

Fixpoint session (c : C) (turns : list (string * X))
    : option (C * list (string * option error)) :=
  match turns with
  | [] => Some (c, [])
  | (message, x) :: rest =>
      match send c message x with
      | Panic => None
      | Return c' response _ err =>
          match session c' rest with
          | None => None
          | Some (final, log) => Some (final, (response, err) :: log)
          end
      end
  end.
End Session.

(** A call that returned a nil error; one that also returned text. *)
Definition succeeded (r : string * option error) : bool :=
  match r.2 with None => true | Some _ => false end.
Definition carried (r : string * option error) : bool :=
  succeeded r && negb (String.eqb r.1 "").

(** The transcript the claim expects: per turn the prompt, then the reply. *)
Definition transcript {M : Type} (user assistant : string -> M)
    (exchanged : list (string * string)) : list M :=
  flat_map (fun e => [user e.1; assistant e.2]) exchanged.

(** The prompts and replies of the calls that returned text without an
    error, in order. *)
Definition exchanged {X : Type} (turns : list (string * X))
    (log : list (string * option error)) : list (string * string) :=
  omap (fun p : string * (string * option error) =>
          if carried p.2 then Some (p.1, p.2.1) else None)
       (zip (turns.*1) log).

Definition geminiUser (text : string) : genai.Content :=
  genai.mkContent [genai.Text text] "user".
Definition geminiAssistant (text : string) : genai.Content :=
  genai.mkContent [genai.Text text] "assistant".



(** A store on which the calls of the history package do not fail. *)
Definition healthy (d : history.Store) : Prop :=
  (∃ home, history.userHomeDir d = inr home)
  ∧ history.mkdirAll d = None
  ∧ history.readFile d = None
  ∧ history.marshalIndent d = None
  ∧ history.writeFile d = None.

(** The number of bytes of [s] equal to [sep], and the pieces put together
    again with [sep] between them. *)
Fixpoint occurrences (sep : Ascii.ascii) (s : string) : nat :=
  match s with
  | EmptyString => 0
  | String a rest =>
      (if Ascii.eqb a sep then 1 else 0) + occurrences sep rest
  end.

Fixpoint joinWith (sep : Ascii.ascii) (pieces : list string) : string :=
  match pieces with
  | [] => EmptyString
  | [piece] => piece
  | piece :: rest => piece +:+ String sep (joinWith sep rest)
  end.

(** ** Concrete worlds, clients and exchanges *)

(** Package [unicode] on ASCII, and [range] over an ASCII string. *)
Definition asciiLetter (c : Z) : bool :=
  ((65 <=? c) && (c <=? 90) || (97 <=? c) && (c <=? 122))%Z.
Definition asciiDigit (c : Z) : bool := ((48 <=? c) && (c <=? 57))%Z.
Fixpoint asciiRunes (s : string) : list Z :=
  match s with
  | EmptyString => []
  | String a rest => Z.of_N (Ascii.N_of_ascii a) :: asciiRunes rest
  end.

(** A world with the given environment in which every probe is answered
    with the given status and [genai.NewClient] succeeds. *)
Definition world (e : gmap string string) (status : Z) : World :=
  mkWorld e (fun _ => inr (status, "Ollama is running")) (fun _ => None)
    asciiLetter asciiDigit asciiRunes.

(** A world in which no server listens. *)
Definition offline (e : gmap string string) : World :=
  mkWorld e (fun _ => inl (errorString "connection refused")) (fun _ => None)
    asciiLetter asciiDigit asciiRunes.

Definition sampleKey : string := "sk-0123456789abcdefghij".

Definition ollamaReady : Ollama.OllamaClient :=
  Ollama.mkClient "http://localhost:11434"
    [Ollama.mkMessage SystemRole systemPrompt] "llama3:latest" (Some 60%Z).

Definition chunk (content : string) (done : bool) : Ollama.OllamaResponse :=
  Ollama.mkResponse "llama3:latest" (Ollama.mkMessage AssistantRole content) done.

Definition ollamaAnswer (chunks : list Ollama.OllamaResponse) (closing : error)
    : Ollama.Exchange :=
  Ollama.mkExchange None (inr (Ollama.mkHTTP 200 "" (mkStream chunks closing)))
    1500%Z.


Definition sseReady : SSE.Adapter :=
  SSE.mkAdapter (Some (openai.mkClient Groq.baseURL sampleKey))
    [openai.mkMessage SystemRole systemPrompt] "gemma2-9b-it".

Definition delta (content : string) : openai.ChatCompletionStreamResponse :=
  openai.mkEvent [openai.mkChoice content].

Definition noChoices : openai.ChatCompletionStreamResponse := openai.mkEvent [].

Definition sseAnswer (events : list openai.ChatCompletionStreamResponse)
    (closing : error) : SSE.Exchange :=
  SSE.mkExchange (inr (mkStream events closing)) 1500%Z.

(** [io.ErrUnexpectedEOF]: the connection was cut in the middle of a body. *)
Definition io_ErrUnexpectedEOF : error := errorString "unexpected EOF".

Definition connectionReset : error :=
  errorString "read tcp: connection reset by peer".

Definition geminiReady : Gemini.GeminiClient :=
  Gemini.mkClient (Some sampleKey)
    (Some (genai.mkModel "gemini-2.0-flash-lite")) [] "gemini-2.0-flash-lite".

Definition textResponse (s : string) : genai.GenerateContentResponse :=
  genai.mkResponse
    [genai.mkCandidate (Some (genai.mkContent [genai.Text s] "model"))].

Definition geminiAnswer (resps : list genai.GenerateContentResponse)
    (closing : error) : Gemini.Exchange :=
  Gemini.mkExchange (mkStream resps closing) 1500%Z.

Definition sambaReady : Samba.SambaClient :=
  Samba.mkClient sampleKey "https://api.sambanova.ai/v1" []
    "Meta-Llama-3.3-70B-Instruct" (Some 60%Z).

Definition sambaAnswer (status : Z) (choices : list Samba.Choice)
    : Samba.Exchange :=
  Samba.mkExchange None None
    (inr (Samba.mkHTTP status "{}" (inr (Samba.mkCompletion choices))))
    false 1500%Z.

Definition helloTurn : list (string * Gemini.Exchange) :=
  [("hi", geminiAnswer [textResponse "Hel"; textResponse "lo"] iterator_Done)].

Definition twoTurns : list (string * Samba.Exchange) :=
  [("hi", sambaAnswer 200 [Samba.mkChoice "Hello"]);
   ("more", sambaAnswer 200 [])].

(** A key with the length and alphabet of a key, but not OpenAI's prefix. *)
Definition foreignKey : string := "gsk_0123456789abcdefghij".

Definition groqWorld : World := world {["GROQ_API_KEY" := sampleKey]} 200.

Definition geminiWorld : World := world {["GEMINI_API_KEY" := sampleKey]} 200.

Definition ollamaRefused : Ollama.Exchange :=
  Ollama.mkExchange None (inl (errorString "connection refused")) 1500%Z.

Definition sseRefused : SSE.Exchange :=
  SSE.mkExchange (inl (APIError 401 "invalid_api_key" "Incorrect API key"
                         "error, status code: 401")) 1500%Z.

Definition mistralWorld : World := world {["OLLAMA_MODEL" := "mistral"]} 200.

Definition openaiWorld : World := world {["OPENAI_API_KEY" := sampleKey]} 200.

Definition noCandidates : genai.GenerateContentResponse := genai.mkResponse [].

(** [strings.ToLower] and [strings.Fields] on ASCII text. *)
Definition asciiLower (a : Ascii.ascii) : Ascii.ascii :=
  let n := Ascii.N_of_ascii a in
  if ((65 <=? n) && (n <=? 90))%N then Ascii.ascii_of_N (n + 32) else a.

Fixpoint asciiToLower (s : string) : string :=
  match s with
  | EmptyString => EmptyString
  | String a rest => String (asciiLower a) (asciiToLower rest)
  end.

Definition asciiSpace (a : Ascii.ascii) : bool :=
  let n := Ascii.N_of_ascii a in
  ((n =? 32) || (9 <=? n) && (n <=? 13))%N.

(** The fields of [s], given the field being read. *)
Fixpoint asciiFieldsFrom (s : string) (current : option string)
    : list string :=
  match s with
  | EmptyString =>
      match current with Some f => [f] | None => [] end
  | String a rest =>
      if asciiSpace a then
        match current with
        | Some f => f :: asciiFieldsFrom rest None
        | None => asciiFieldsFrom rest None
        end
      else
        asciiFieldsFrom rest
          (Some (default "" current +:+ String a EmptyString))
  end.

Definition asciiText : GoText :=
  mkGoText asciiToLower (fun s => asciiFieldsFrom s None).

Definition emptyStore : history.Store :=
  history.mkStore (inr "/home/user") None None None None None.

Definition garbledStore : history.Store :=
  history.mkStore (inr "/home/user") None
    (Some (history.Garbled (errorString "unexpected end of JSON input")))
    None None None.

Definition sampleEntry (prompt reply : string) : history.Entry :=
  history.mkEntry 0 "ollama" "llama3:latest" prompt reply 1 1 2 1500%Z None.

Definition threeEntries : history.Store :=
  history.mkStore (inr "/home/user") None
    (Some (history.Encoded
             (history.mkHistory
                [sampleEntry "one" "1"; sampleEntry "two" "2";
                 sampleEntry "three" "3"])))
    None None None.

Definition plainOptions : ChatOptions :=
  mkOptions false ProviderGroq false false "" 4000 "text" "info" false false
    false.

(** * Verification *)

(** ** Text *)

Lemma append_cons (a : Ascii.ascii) (s t : string) :
  String a s +:+ t = String a (s +:+ t).
Proof. reflexivity. Qed.

Lemma append_nil_r (s : string) : s +:+ "" = s.
Proof.
  induction s as [|a s IH]; [reflexivity|].
  by rewrite append_cons, IH.
Qed.

Lemma append_assoc (s t u : string) : (s +:+ t) +:+ u = s +:+ (t +:+ u).
Proof.
  induction s as [|a s IH]; [reflexivity|].
  by rewrite !append_cons, IH.
Qed.

Lemma joined_cons (piece : string) (pieces : list string) :
  joined (piece :: pieces) = piece +:+ joined pieces.
Proof. reflexivity. Qed.

(** ** The receive loops *)

Lemma ollama_receive_spec (chunks : list Ollama.OllamaResponse)
    (closing : error) (acc : string) :
  Ollama.receive chunks closing acc =
    if existsb Ollama.Done chunks
    then Break (acc +:+ fragments (throughDone chunks))
    else if is_io_EOF closing
         then Break (acc +:+ fragments chunks)
         else Abort (acc +:+ fragments chunks) closing.
Proof.
  revert acc. induction chunks as [|r rest IH]; intros acc; simpl.
  - rewrite append_nil_r. reflexivity.
  - destruct (Ollama.Done r) eqn:Hdone; simpl.
    + unfold fragments. simpl. by rewrite append_nil_r.
    + rewrite IH. unfold fragments. simpl.
      rewrite !append_assoc. reflexivity.
Qed.

Lemma sse_receive_spec (events : list openai.ChatCompletionStreamResponse)
    (closing : error) (acc : string) :
  SSE.receive events closing acc =
    if takenForEOF closing
    then Break (acc +:+ deltas events)
    else Abort (acc +:+ deltas events) closing.
Proof.
  revert acc. induction events as [|e rest IH]; intros acc; simpl.
  - unfold deltas, takenForEOF. simpl. by rewrite append_nil_r.
  - unfold deltas. rewrite filter_cons.
    destruct e as [[|c cs]]; simpl.
    + rewrite IH. reflexivity.
    + rewrite IH. unfold deltas, firstDelta. simpl.
      rewrite !append_assoc. reflexivity.
Qed.

Lemma gemini_collect_spec (parts : list genai.Part) (acc : string) :
  Forall (fun p => is_Some (partText p)) parts ->
  Gemini.collect parts acc = Some (acc +:+ joined (omap partText parts)).
Proof.
  intros Hparts. revert acc.
  induction Hparts as [|p parts [s Hs] _ IH]; intros acc; simpl.
  - by rewrite append_nil_r.
  - destruct p as [t|]; simpl in *; [|discriminate].
    rewrite IH, append_assoc. reflexivity.
Qed.

Lemma gemini_receive_spec (resps : list genai.GenerateContentResponse)
    (closing : error) (acc : string) :
  Forall readable resps ->
  Gemini.receive resps closing acc =
    if is_iterator_Done closing
    then Break (acc +:+ texts resps)
    else Abort (acc +:+ texts resps) closing.
Proof.
  intros Hall. revert acc.
  induction Hall as [|resp resps Hresp _ IH]; intros acc; simpl.
  - unfold texts. simpl. by rewrite append_nil_r.
  - destruct Hresp as (candidate & content & Hfirst & Hcontent & Hparts).
    rewrite Hfirst, Hcontent, (gemini_collect_spec _ _ Hparts), IH.
    unfold texts, responseText. simpl.
    destruct (genai.Candidates resp) as [|c0 cs]; [discriminate|].
    injection Hfirst as ->. rewrite Hcontent, !append_assoc. reflexivity.
Qed.

(** ** What a call of [SendMessage] does, per adapter *)

(** Case analysis on membership in an explicit list of adapters. *)
Ltac each_of H :=
  repeat (apply elem_of_cons in H as [-> | H]); [.. | by apply elem_of_nil in H].

Lemma sse_send_spec
    (send : SSE.Adapter -> string -> SSE.Exchange -> Outcome SSE.Adapter)
    (a : SSE.Adapter) (message : string) (x : SSE.Exchange)
    (stream : Stream openai.ChatCompletionStreamResponse) :
  send ∈ [OpenAI.SendMessage; Groq.SendMessage; Together.SendMessage] ->
  is_Some (SSE.client a) ->
  SSE.create x = inr stream ->
  send a message x =
    let asked := SSE.append a (openai.mkMessage UserRole message) in
    let text := deltas (frames stream) in
    if takenForEOF (closing stream)
    then Return (SSE.append asked (openai.mkMessage AssistantRole text))
           text (SSE.since x) None
    else Return asked text (SSE.since x)
           (Some (Errorf_w "stream error: " (closing stream))).
Proof.
  intros Hsend [h Hclient] Hcreate.
  each_of Hsend;
    unfold OpenAI.SendMessage, Groq.SendMessage, Together.SendMessage;
    simpl; rewrite Hclient, Hcreate, sse_receive_spec;
    fold (takenForEOF (closing stream));
    destruct (takenForEOF (closing stream)); reflexivity.
Qed.

Lemma ollama_send_spec (o : Ollama.OllamaClient) (message : string)
    (x : Ollama.Exchange) (resp : Ollama.Response) :
  Ollama.marshal x = None ->
  is_Some (Ollama.httpClient o) ->
  Ollama.post x = inr resp ->
  Ollama.StatusCode resp = 200%Z ->
  Ollama.SendMessage o message x =
    let asked := Ollama.append o (Ollama.mkMessage UserRole message) in
    match Ollama.receive (frames (Ollama.Chunks resp))
            (closing (Ollama.Chunks resp)) "" with
    | Abort partial err =>
        Return asked partial (Ollama.since x)
          (Some (Errorf_w "failed to decode response: " err))
    | Break text =>
        Return (Ollama.append asked (Ollama.mkMessage AssistantRole text))
          text (Ollama.since x) None
    | LoopPanic => Panic
    end.
Proof.
  intros Hmarshal [h Hclient] Hpost Hstatus.
  unfold Ollama.SendMessage. simpl.
  rewrite Hmarshal, Hclient, Hpost, Hstatus.
  rewrite decide_False by (intros H; by apply H).
  reflexivity.
Qed.

Lemma existsb_Done_false (chunks : list Ollama.OllamaResponse) :
  Forall (fun r => Ollama.Done r = false) chunks ->
  existsb Ollama.Done chunks = false.
Proof.
  induction 1 as [|r rest Hr _ IH]; simpl; [done|]. by rewrite Hr, IH.
Qed.

Lemma is_io_EOF_false (e : error) : e ≠ io_EOF -> is_io_EOF e = false.
Proof. by destruct e. Qed.

Lemma is_iterator_Done_false (e : error) :
  e ≠ iterator_Done -> is_iterator_Done e = false.
Proof. by destruct e. Qed.

(** ** C1: a stream that breaks in the middle *)

(** C1, counterexample.  An Ollama stream delivers "Hel" and then fails to
    decode: the call returns "Hel" with an error, but the conversation has
    grown from one message to two, the user message of the failed turn
    stays.  A Groq stream delivers "Hel" and is then cut with
    [io.ErrUnexpectedEOF]: the call returns a nil error and records "Hel"
    as the assistant's message. *)
Lemma interrupted_stream_counterexample :
  Ollama.SendMessage ollamaReady "hi"
      (ollamaAnswer [chunk "Hel" false] (errorString "invalid character"))
    = Return
        (Ollama.append ollamaReady (Ollama.mkMessage UserRole "hi"))
        "Hel" 1500%Z
        (Some (Errorf_w "failed to decode response: "
                 (errorString "invalid character")))
  ∧ length (Ollama.messages ollamaReady) = 1
  ∧ length (Ollama.messages
              (Ollama.append ollamaReady (Ollama.mkMessage UserRole "hi"))) = 2
  ∧ Groq.SendMessage sseReady "hi" (sseAnswer [delta "Hel"] io_ErrUnexpectedEOF)
    = Return
        (SSE.append (SSE.append sseReady (openai.mkMessage UserRole "hi"))
           (openai.mkMessage AssistantRole "Hel"))
        "Hel" 1500%Z None.
Proof. repeat split; reflexivity. Qed.

(** C1, amended.  For each streaming adapter, when the receive loop is
    left by an error (Ollama: a decode error other than [io.EOF] before any
    chunk has its completion flag set; OpenAI, Groq, Together: a receive
    error that is not [io.EOF] and whose text does not contain "EOF";
    Gemini: an error other than [iterator.Done] after readable responses),
    [SendMessage] returns exactly the text accumulated so far and a non-nil
    error, and the conversation is the one before the call followed by the
    user message of the failed turn: no assistant message is appended. *)
Theorem interrupted_stream_keeps_the_question :
  (∀ (o : Ollama.OllamaClient) (message : string) (x : Ollama.Exchange)
     (resp : Ollama.Response),
      Ollama.marshal x = None ->
      is_Some (Ollama.httpClient o) ->
      Ollama.post x = inr resp ->
      Ollama.StatusCode resp = 200%Z ->
      Forall (fun r => Ollama.Done r = false) (frames (Ollama.Chunks resp)) ->
      closing (Ollama.Chunks resp) ≠ io_EOF ->
      ∃ o' err,
        Ollama.SendMessage o message x
          = Return o' (fragments (frames (Ollama.Chunks resp)))
              (Ollama.since x) (Some err)
        ∧ Ollama.messages o'
          = Ollama.messages o ++ [Ollama.mkMessage UserRole message])
  ∧ (∀ send,
      send ∈ [OpenAI.SendMessage; Groq.SendMessage; Together.SendMessage] ->
      ∀ (a : SSE.Adapter) (message : string) (x : SSE.Exchange)
        (stream : Stream openai.ChatCompletionStreamResponse),
        is_Some (SSE.client a) ->
        SSE.create x = inr stream ->
        takenForEOF (closing stream) = false ->
        ∃ a' err,
          send a message x
            = Return a' (deltas (frames stream)) (SSE.since x) (Some err)
          ∧ SSE.messages a'
            = SSE.messages a ++ [openai.mkMessage UserRole message])
  ∧ (∀ (g : Gemini.GeminiClient) (message : string) (x : Gemini.Exchange),
      is_Some (Gemini.model g) ->
      Forall readable (frames (Gemini.reply x)) ->
      closing (Gemini.reply x) ≠ iterator_Done ->
      ∃ g' err,
        Gemini.SendMessage g message x
          = Return g' (texts (frames (Gemini.reply x))) (Gemini.since x)
              (Some err)
        ∧ Gemini.messages g'
          = Gemini.messages g ++ [genai.mkContent [genai.Text message] "user"]).
Proof.
  split; [|split].
  - intros o message x resp Hmarshal Hclient Hpost Hstatus Hdone Hclosing.
    rewrite (ollama_send_spec _ _ _ _ Hmarshal Hclient Hpost Hstatus).
    rewrite ollama_receive_spec, (existsb_Done_false _ Hdone),
      (is_io_EOF_false _ Hclosing).
    simpl. eauto.
  - intros send Hsend a message x stream Hclient Hcreate Hclosing.
    rewrite (sse_send_spec _ _ _ _ _ Hsend Hclient Hcreate).
    simpl. rewrite Hclosing. eauto.
  - intros g message x [m Hmodel] Hread Hclosing.
    unfold Gemini.SendMessage. simpl. rewrite Hmodel.
    rewrite (gemini_receive_spec _ _ _ Hread),
      (is_iterator_Done_false _ Hclosing).
    simpl. eauto.
Qed.

(** C1, witness: one broken stream per kind of adapter. *)
Lemma interrupted_stream_witness :
  (∃ o' err,
     Ollama.SendMessage ollamaReady "hi"
       (ollamaAnswer [chunk "Hel" false] (errorString "invalid character"))
       = Return o' "Hel" 1500%Z (Some err)
     ∧ Ollama.messages o'
       = Ollama.messages ollamaReady ++ [Ollama.mkMessage UserRole "hi"])
  ∧ (∃ a' err,
     Together.SendMessage sseReady "hi" (sseAnswer [delta "Hel"] connectionReset)
       = Return a' "Hel" 1500%Z (Some err)
     ∧ SSE.messages a'
       = SSE.messages sseReady ++ [openai.mkMessage UserRole "hi"])
  ∧ (∃ g' err,
     Gemini.SendMessage geminiReady "hi"
       (geminiAnswer [textResponse "Hel"] connectionReset)
       = Return g' "Hel" 1500%Z (Some err)
     ∧ Gemini.messages g'
       = Gemini.messages geminiReady ++ [genai.mkContent [genai.Text "hi"] "user"]).
Proof.
  destruct interrupted_stream_keeps_the_question as (Hollama & Hsse & Hgemini).
  split; [|split].
  - apply (Hollama ollamaReady "hi"
             (ollamaAnswer [chunk "Hel" false] (errorString "invalid character"))
             (Ollama.mkHTTP 200 "" (mkStream [chunk "Hel" false] (errorString "invalid character"))));
      try reflexivity.
    + by eexists.
    + by repeat constructor.
    + discriminate.
  - apply (Hsse Together.SendMessage ltac:(set_solver) sseReady "hi"
             (sseAnswer [delta "Hel"] connectionReset)
             (mkStream [delta "Hel"] connectionReset)); try reflexivity.
    by eexists.
  - apply (Hgemini geminiReady "hi"
             (geminiAnswer [textResponse "Hel"] connectionReset)).
    + by eexists.
    + repeat constructor. eexists _, _. repeat split; try reflexivity.
      repeat constructor. by eexists.
    + discriminate.
Defined.

(** ** C2: the length of a conversation *)

Lemma session_length {C X : Type} (send : C -> string -> X -> Outcome C)
    (turns : list (string * X)) (c final : C)
    (log : list (string * option error)) :
  session send c turns = Some (final, log) -> length log = length turns.
Proof.
  revert c log. induction turns as [|[message x] rest IH]; intros c log; simpl.
  - by intros [= _ <-].
  - destruct (send c message x) as [c' response elapsed err|]; [|done].
    destruct (session send c' rest) as [[final' log']|] eqn:Hrest; [|done].
    intros [= <- <-]. simpl. f_equal. exact (IH _ _ Hrest).
Qed.

Lemma gemini_send_messages (g g' : Gemini.GeminiClient) (message text : string)
    (x : Gemini.Exchange) (elapsed : Duration) (err : option error) :
  Gemini.SendMessage g message x = Return g' text elapsed err ->
  Gemini.messages g' =
    Gemini.messages g ++
      geminiUser message ::
      (if succeeded (text, err) then [geminiAssistant text] else []).
Proof.
  unfold Gemini.SendMessage. simpl.
  destruct (Gemini.model g); [|done].
  destruct (Gemini.receive _ _ _); intros [= <- <- _ <-]; simpl; [|done].
  by rewrite <- app_assoc.
Qed.

Lemma samba_send_messages (s s' : Samba.SambaClient) (message text : string)
    (x : Samba.Exchange) (elapsed : Duration) (err : option error) :
  Samba.SendMessage s message x = Return s' text elapsed err ->
  Samba.messages s' =
    Samba.messages s ++
      (if carried (text, err)
       then [Samba.mkMessage UserRole message; Samba.mkMessage AssistantRole text]
       else []).
Proof.
  unfold Samba.SendMessage.
  destruct (Samba.marshal x); [intros [= <- <- _ <-]; simpl; by rewrite app_nil_r|].
  destruct (Samba.newRequest x); [intros [= <- <- _ <-]; simpl; by rewrite app_nil_r|].
  destruct (Samba.httpClient s); [|done].
  destruct (Samba.do x) as [e|resp].
  { destruct (Samba.deadlineExceeded x); intros [= <- <- _ <-]; simpl;
      by rewrite app_nil_r. }
  case_decide; [intros [= <- <- _ <-]; simpl; by rewrite app_nil_r|].
  destruct (Samba.Unmarshal resp) as [e|completion];
    [intros [= <- <- _ <-]; simpl; by rewrite app_nil_r|].
  destruct (Samba.Choices completion) as [|first rest];
    [intros [= <- <- _ <-]; simpl; by rewrite app_nil_r|].
  case_decide as Hcontent; intros [= <- <- _ <-]; simpl.
  - by rewrite app_nil_r.
  - unfold carried, succeeded. simpl.
    destruct (String.eqb_spec (Samba.Message_Content first) ""); [done|].
    simpl. by rewrite <- app_assoc.
Qed.

Lemma gemini_session (turns : list (string * Gemini.Exchange))
    (g final : Gemini.GeminiClient) (log : list (string * option error)) :
  session Gemini.SendMessage g turns = Some (final, log) ->
  Forall (fun r => succeeded r = true) log ->
  Gemini.messages final =
    Gemini.messages g ++
      transcript geminiUser geminiAssistant (zip (turns.*1) (log.*1)).
Proof.
  revert g log. induction turns as [|[message x] rest IH]; intros g log; simpl.
  - intros [= <- <-] _. by rewrite app_nil_r.
  - destruct (Gemini.SendMessage g message x)
      as [g' response elapsed err|] eqn:Hsend; [|done].
    destruct (session Gemini.SendMessage g' rest) as [[final' log']|] eqn:Hrest;
      [|done].
    intros [= <- <-] Hall. apply Forall_cons in Hall as [Hfirst Hall].
    rewrite (IH _ _ Hrest Hall), (gemini_send_messages _ _ _ _ _ _ _ Hsend).
    rewrite Hfirst. simpl. by rewrite <- app_assoc.
Qed.

Lemma samba_session (turns : list (string * Samba.Exchange))
    (s final : Samba.SambaClient) (log : list (string * option error)) :
  session Samba.SendMessage s turns = Some (final, log) ->
  Samba.messages final =
    Samba.messages s ++
      transcript (Samba.mkMessage UserRole) (Samba.mkMessage AssistantRole)
        (exchanged turns log).
Proof.
  revert s log. induction turns as [|[message x] rest IH]; intros s log; simpl.
  - intros [= <- <-]. by rewrite app_nil_r.
  - destruct (Samba.SendMessage s message x)
      as [s' response elapsed err|] eqn:Hsend; [|done].
    destruct (session Samba.SendMessage s' rest) as [[final' log']|] eqn:Hrest;
      [|done].
    intros [= <- <-].
    rewrite (IH _ _ Hrest), (samba_send_messages _ _ _ _ _ _ _ Hsend).
    unfold exchanged. simpl.
    destruct (carried (response, err)); simpl; by rewrite <- app_assoc.
Qed.

Lemma transcript_length {M : Type} (user assistant : string -> M)
    (pairs : list (string * string)) :
  length (transcript user assistant pairs) = 2 * length pairs.
Proof. induction pairs as [|p rest IH]; simpl; [done | rewrite IH; lia]. Qed.

Lemma exchanged_length {X : Type} (turns : list (string * X))
    (log : list (string * option error)) :
  length log = length turns ->
  length (exchanged turns log) = length (List.filter carried log).
Proof.
  revert log. induction turns as [|t rest IH]; intros [|r log]; simpl; try done.
  intros [= Hlen]. unfold exchanged in *. simpl.
  destruct (carried r); simpl; rewrite IH; done.
Qed.

(** C2, counterexample.  A SambaNova client with an empty conversation
    makes one call that is answered with status 200 and no choices: the
    call succeeds (nil error), and the conversation still has no message,
    not two. *)
Lemma samba_empty_success_counterexample :
  session Samba.SendMessage sambaReady [("hi", sambaAnswer 200 [])]
    = Some (sambaReady, [("", None)])
  ∧ Samba.messages sambaReady = [].
Proof. split; reflexivity. Qed.

(** C2, amended.  Both adapters start without a system message.  For
    Gemini, after N calls that all returned a nil error the conversation is
    exactly the N prompts, each followed by its reply, with roles "user" and
    "assistant": 2N messages.  For SambaNova the conversation after any
    calls is the prompts and replies of those calls that returned a nil
    error and a non-empty reply, 2K messages for K such calls: a call
    answered with no choices or empty content succeeds and records
    nothing. *)
Theorem conversation_grows_by_two_per_turn :
  (∀ (w : World) (g : Gemini.GeminiClient),
      failure (Gemini.Initialize w g) = None ->
      Gemini.messages (self (Gemini.Initialize w g)) = [])
  ∧ (∀ (turns : list (string * Gemini.Exchange))
       (g final : Gemini.GeminiClient) (log : list (string * option error)),
      Gemini.messages g = [] ->
      session Gemini.SendMessage g turns = Some (final, log) ->
      Forall (fun r => succeeded r = true) log ->
      Gemini.messages final
        = transcript geminiUser geminiAssistant (zip (turns.*1) (log.*1))
      ∧ length (Gemini.messages final) = 2 * length turns)
  ∧ (∀ (w : World),
      Samba.messages (self (Samba.Initialize w Samba.zero)) = [])
  ∧ (∀ (turns : list (string * Samba.Exchange))
       (s final : Samba.SambaClient) (log : list (string * option error)),
      Samba.messages s = [] ->
      session Samba.SendMessage s turns = Some (final, log) ->
      Samba.messages final
        = transcript (Samba.mkMessage UserRole) (Samba.mkMessage AssistantRole)
            (exchanged turns log)
      ∧ length (Samba.messages final) = 2 * length (List.filter carried log)).
Proof.
  split; [|split; [|split]].
  - intros w g. unfold Gemini.Initialize.
    case_decide; [done|]. by destruct (genaiNewClient w _).
  - intros turns g final log Hempty Hsession Hall.
    pose proof (gemini_session _ _ _ _ Hsession Hall) as Hfinal.
    rewrite Hempty in Hfinal. simpl in Hfinal. split; [done|].
    rewrite Hfinal, transcript_length, length_zip, !length_fmap.
    rewrite (session_length _ _ _ _ _ Hsession). lia.
  - intros w. unfold Samba.Initialize. by case_decide.
  - intros turns s final log Hempty Hsession.
    pose proof (samba_session _ _ _ _ Hsession) as Hfinal.
    rewrite Hempty in Hfinal. simpl in Hfinal. split; [done|].
    rewrite Hfinal, transcript_length, exchanged_length; [done|].
    by apply session_length in Hsession.
Qed.


(** C2, witness: an initialized Gemini client, one Gemini turn, and two
    SambaNova turns of which the second is answered with no choices. *)
Lemma conversation_witness :
  Gemini.messages (self (Gemini.Initialize geminiWorld Gemini.zero)) = []
  ∧ (∃ final log,
      session Gemini.SendMessage geminiReady helloTurn = Some (final, log)
      ∧ Gemini.messages final
        = transcript geminiUser geminiAssistant (zip (helloTurn.*1) (log.*1))
      ∧ length (Gemini.messages final) = 2 * length helloTurn)
  ∧ (∃ final log,
      session Samba.SendMessage sambaReady twoTurns = Some (final, log)
      ∧ Samba.messages final
        = transcript (Samba.mkMessage UserRole) (Samba.mkMessage AssistantRole)
            (exchanged twoTurns log)
      ∧ length (Samba.messages final) = 2 * length (List.filter carried log)).
Proof.
  destruct conversation_grows_by_two_per_turn as (Hinit & Hgemini & _ & Hsamba).
  split; [|split].
  - apply (Hinit geminiWorld Gemini.zero). reflexivity.
  - eexists _, _. split; [reflexivity|].
    apply (Hgemini helloTurn geminiReady); [reflexivity | reflexivity |].
    by repeat constructor.
  - eexists _, _. split; [reflexivity|].
    apply (Hsamba twoTurns sambaReady); reflexivity.
Defined.

(** ** Initialization and the factory *)

Lemma getenv_agree (e e' : gmap string string) (k : string) :
  e' !! k = e !! k -> os_Getenv e' k = os_Getenv e k.
Proof. unfold os_Getenv. by intros ->. Qed.

Lemma getenv_unset (e : gmap string string) (k : string) :
  e !! k = None -> os_Getenv e k = "".
Proof. unfold os_Getenv. by intros ->. Qed.


(** The alias variable is read for nothing but the choice of the model:
    two environments that agree on every other variable give the same
    effects and the same error. *)
Lemma alias_never_decides (w : World) (c : ChatInterface)
    (e' : gmap string string) :
  (∀ k, k ≠ aliasVar c -> e' !! k = env w !! k) ->
  failure (Initialize (withEnv w e') c) = failure (Initialize w c)
  ∧ trace (Initialize (withEnv w e') c) = trace (Initialize w c).
Proof.
  intros Hagree.
  destruct c as [t|o|g|s|o|g]; simpl in Hagree; simpl.
  - unfold Together.Initialize. simpl.
    rewrite (getenv_agree (env w) e' "TOGETHER_API_KEY") by by apply Hagree.
    by case_decide.
  - unfold Ollama.Initialize. simpl.
    rewrite (getenv_agree (env w) e' "OLLAMA_URL") by by apply Hagree.
    destruct (httpGet w _) as [err|[status body]]; [done|]. by case_decide.
  - unfold Groq.Initialize. simpl.
    rewrite (getenv_agree (env w) e' "GROQ_API_KEY") by by apply Hagree.
    by case_decide.
  - unfold Samba.Initialize. simpl.
    rewrite (getenv_agree (env w) e' "SAMBA_API_KEY") by by apply Hagree.
    by case_decide.
  - unfold OpenAI.Initialize. simpl.
    rewrite (getenv_agree (env w) e' "OPENAI_API_KEY") by by apply Hagree.
    case_decide; [done|].
    change (ValidateAPIKey (withEnv w e')) with (ValidateAPIKey w).
    by destruct (ValidateAPIKey w _ _).
  - unfold Gemini.Initialize. simpl.
    rewrite (getenv_agree (env w) e' "GEMINI_API_KEY") by by apply Hagree.
    case_decide; [done|]. by destruct (genaiNewClient w _).
Qed.

(** The model [Initialize] leaves in the receiver when it succeeds. *)
Lemma initialized_model (w : World) (c : ChatInterface) :
  failure (Initialize w c) = None ->
  GetModelName (self (Initialize w c)) =
    let model := map_index (aliasTable c) (os_Getenv (env w) (aliasVar c)) in
    if decide (model = "") then defaultModel c else model.
Proof.
  destruct c as [t|o|g|s|o|g]; simpl.
  - unfold Together.Initialize. by case_decide.
  - unfold Ollama.Initialize.
    destruct (httpGet w _) as [err|[status body]]; [done|]. by case_decide.
  - unfold Groq.Initialize. by case_decide.
  - unfold Samba.Initialize. by case_decide.
  - unfold OpenAI.Initialize. case_decide; [done|].
    by destruct (ValidateAPIKey w _ _).
  - unfold Gemini.Initialize. case_decide; [done|].
    by destruct (genaiNewClient w _).
Qed.

Lemma initialize_keeps_type (w : World) (c : ChatInterface) :
  providerOf (self (Initialize w c)) = providerOf c.
Proof. by destruct c. Qed.

Lemma fresh_supported (p : Provider) : p ∈ supported <-> is_Some (fresh p).
Proof.
  unfold supported, fresh. split.
  - intros H. each_of H; by eexists.
  - intros [c0 H]. repeat case_decide; subst; try done; set_solver.
Qed.

Lemma fresh_type (p : Provider) (c0 : ChatInterface) :
  fresh p = Some c0 -> providerOf c0 = p.
Proof.
  unfold fresh. repeat case_decide; intros [= <-]; by subst.
Qed.

(** The [switch] of [CreateChatClient], branch by branch. *)
Lemma create_spec (w : World) (p : Provider) :
  match fresh p with
  | None =>
      CreateChatClient w p =
        mkCreated [] (inl (errorString ("unsupported provider: " +:+ p)))
  | Some c0 =>
      match credentialVar c0 with
      | Some key =>
          if decide (os_Getenv (env w) key = "")
          then touched (CreateChatClient w p) = []
               ∧ ∃ err, result (CreateChatClient w p) = inl err
          else CreateChatClient w p = initialized w c0
      | None => CreateChatClient w p = initialized w c0
      end
  end.
Proof.
  unfold fresh, CreateChatClient.
  repeat (case_decide; subst; simpl; try done); try (by eauto);
    try contradiction.
Qed.

(** ** C3: credentials *)

(** C3, counterexample.  [OPENAI_API_KEY] is set, to a key of the right
    length and alphabet that does not start with "sk-": [Initialize] fails
    although the credential is present, and so does the factory. *)
Lemma openai_rejects_a_present_key :
  env (world {["OPENAI_API_KEY" := foreignKey]} 200) !! "OPENAI_API_KEY"
    = Some foreignKey
  ∧ failure (Initialize (world {["OPENAI_API_KEY" := foreignKey]} 200)
               (OpenAIClient SSE.zero))
    = Some (errorString "OPENAI_API_KEY appears invalid")
  ∧ result (CreateChatClient (world {["OPENAI_API_KEY" := foreignKey]} 200)
              ProviderOpenAI)
    = inl (errorString "OPENAI_API_KEY appears invalid").
Proof. repeat split; reflexivity. Qed.

(** C3, amended.  For each provider with a credential variable (OpenAI,
    Groq, Together, SambaNova, Gemini): when the variable is unset or empty,
    [Initialize] fails and so does [CreateChatClient], and neither touches
    any outside resource.  When it is set, [Initialize] succeeds exactly
    when, for OpenAI, [ValidateAPIKey] accepts the key, and for Gemini,
    [genai.NewClient] returns no error; for Groq, Together and SambaNova it
    always succeeds.  The model alias has no part in it: changing only the
    alias variable never changes the error. *)
Theorem credential_decides_initialization (w : World) (c : ChatInterface)
    (key : string) :
  credentialVar c = Some key ->
  (os_Getenv (env w) key = "" ->
     is_Some (failure (Initialize w c))
     ∧ trace (Initialize w c) = []
     ∧ (∃ err, result (CreateChatClient w (providerOf c)) = inl err)
     ∧ touched (CreateChatClient w (providerOf c)) = [])
  ∧ (os_Getenv (env w) key ≠ "" ->
     (failure (Initialize w c) = None <-> accepted w c)
     ∧ ∀ e' : gmap string string,
         (∀ k, k ≠ aliasVar c -> e' !! k = env w !! k) ->
         failure (Initialize (withEnv w e') c) = failure (Initialize w c)).
Proof.
  intros Hkey. split.
  - intros Habsent.
    pose proof (create_spec w (providerOf c)) as Hcreate.
    destruct c as [t|o|g|s|o|g]; simpl in Hkey; try discriminate;
      injection Hkey as <-; simpl in *;
      rewrite decide_True in Hcreate by done;
      destruct Hcreate as [Htouched Hresult];
      (split; [|split; [|split]]); try done.
    + unfold Together.Initialize. rewrite decide_True by done. by eexists.
    + unfold Together.Initialize. by rewrite decide_True.
    + unfold Groq.Initialize. rewrite decide_True by done. by eexists.
    + unfold Groq.Initialize. by rewrite decide_True.
    + unfold Samba.Initialize. rewrite decide_True by done. by eexists.
    + unfold Samba.Initialize. by rewrite decide_True.
    + unfold OpenAI.Initialize. rewrite decide_True by done. by eexists.
    + unfold OpenAI.Initialize. by rewrite decide_True.
    + unfold Gemini.Initialize. rewrite decide_True by done. by eexists.
    + unfold Gemini.Initialize. by rewrite decide_True.
  - intros Hpresent. split; [|intros e' Hagree; by apply alias_never_decides].
    destruct c as [t|o|g|s|o|g]; simpl in Hkey; try discriminate;
      injection Hkey as <-; simpl.
    + unfold Together.Initialize. by rewrite decide_False.
    + unfold Groq.Initialize. by rewrite decide_False.
    + unfold Samba.Initialize. by rewrite decide_False.
    + unfold OpenAI.Initialize. rewrite decide_False by done.
      by destruct (ValidateAPIKey w _ _).
    + unfold Gemini.Initialize. rewrite decide_False by done.
      by destruct (genaiNewClient w _).
Qed.

(** C3, witness: Groq without its key, with its key, and with its key and
    an alias of no table. *)
Lemma credential_witness :
  (is_Some (failure (Initialize (world ∅ 200) (GroqClient SSE.zero)))
   ∧ trace (Initialize (world ∅ 200) (GroqClient SSE.zero)) = []
   ∧ (∃ err, result (CreateChatClient (world ∅ 200) ProviderGroq) = inl err)
   ∧ touched (CreateChatClient (world ∅ 200) ProviderGroq) = [])
  ∧ (failure (Initialize groqWorld (GroqClient SSE.zero)) = None
     <-> accepted groqWorld (GroqClient SSE.zero))
  ∧ failure (Initialize
               (withEnv groqWorld (<["GROQ_MODEL" := "nonesuch"]> (env groqWorld)))
               (GroqClient SSE.zero))
    = failure (Initialize groqWorld (GroqClient SSE.zero)).
Proof.
  split.
  - apply (credential_decides_initialization (world ∅ 200) (GroqClient SSE.zero)
             "GROQ_API_KEY"); reflexivity.
  - destruct (credential_decides_initialization groqWorld (GroqClient SSE.zero)
                "GROQ_API_KEY" eq_refl) as [_ Hpresent].
    destruct Hpresent as [Hiff Halias]; [discriminate|].
    split; [exact Hiff|].
    apply Halias. intros k Hk. by rewrite lookup_insert_ne.
Defined.

(** ** C4: the default model *)


Lemma defaultModel_nonempty (c : ChatInterface) : defaultModel c ≠ "".
Proof. by destruct c. Qed.



(** ** C7: the factory's dispatch *)

(** C7, counterexample.  "groq" is a supported name, but with no
    [GROQ_API_KEY] in the environment the factory returns an error and no
    client. *)
Lemma supported_name_without_client :
  ProviderGroq ∈ supported
  ∧ CreateChatClient (world ∅ 200) ProviderGroq
    = mkCreated []
        (inl (errorString "GROQ_API_KEY not set for Groq provider")).
Proof. split; [set_solver | reflexivity]. Qed.

(** C7, amended.  For a name outside the six supported ones the factory
    returns the error "unsupported provider: <name>" and no client, and
    touches nothing.  For a supported name it returns a client exactly when
    the provider's credential variable, if it has one, is set and the
    adapter's [Initialize] succeeds; the client is then the initialized
    adapter of that provider, behind [ChatInterface]; otherwise it returns
    an error and no client. *)
Theorem factory_dispatch (w : World) (p : Provider) :
  (p ∉ supported ->
     CreateChatClient w p
       = mkCreated [] (inl (errorString ("unsupported provider: " +:+ p))))
  ∧ (p ∈ supported ->
     ∃ c0, fresh p = Some c0 ∧ providerOf c0 = p
       ∧ (∀ c, result (CreateChatClient w p) = inr c <->
            (∀ key, credentialVar c0 = Some key -> os_Getenv (env w) key ≠ "")
            ∧ failure (Initialize w c0) = None
            ∧ c = self (Initialize w c0))
       ∧ (∀ c, result (CreateChatClient w p) = inr c -> providerOf c = p)).
Proof.
  pose proof (create_spec w p) as Hcreate. split.
  - intros Hnot. destruct (fresh p) as [c0|] eqn:Hfresh; [|done].
    exfalso. apply Hnot, fresh_supported. by eexists.
  - intros Hin. apply fresh_supported in Hin as [c0 Hfresh].
    rewrite Hfresh in Hcreate. exists c0.
    pose proof (fresh_type _ _ Hfresh) as Htype.
    assert (Hiff : ∀ c, result (CreateChatClient w p) = inr c <->
              (∀ key, credentialVar c0 = Some key -> os_Getenv (env w) key ≠ "")
              ∧ failure (Initialize w c0) = None
              ∧ c = self (Initialize w c0)).
    { intros c. destruct (credentialVar c0) as [key|] eqn:Hkey.
      - case_decide as Hempty.
        + destruct Hcreate as [_ [err Herr]]. rewrite Herr. split; [done|].
          intros [Hset _]. by destruct (Hset key).
        + rewrite Hcreate. unfold initialized.
          destruct (failure (Initialize w c0)) as [err|]; simpl.
          * split; [done | by intros (_ & [=] & _)].
          * split; [intros [= <-] | by intros (_ & _ & ->)].
            repeat split. by intros key' [= <-].
      - rewrite Hcreate. unfold initialized.
        destruct (failure (Initialize w c0)) as [err|]; simpl.
        + split; [done | by intros (_ & [=] & _)].
        + split; [intros [= <-] | by intros (_ & _ & ->)].
          repeat split. by intros key' [=]. }
    split; [done|]. split; [done|]. split; [exact Hiff|].
    intros c Hc. apply Hiff in Hc as (_ & _ & ->).
    by rewrite initialize_keeps_type.
Qed.

(** C7, witness: an unknown name, and Ollama with a server that answers. *)
Lemma factory_dispatch_witness :
  CreateChatClient (world ∅ 200) "mistral"
    = mkCreated [] (inl (errorString "unsupported provider: mistral"))
  ∧ ∃ c0, fresh ProviderOllama = Some c0 ∧ providerOf c0 = ProviderOllama
      ∧ (∀ c, result (CreateChatClient (world ∅ 200) ProviderOllama) = inr c <->
           (∀ key, credentialVar c0 = Some key ->
                   os_Getenv (env (world ∅ 200)) key ≠ "")
           ∧ failure (Initialize (world ∅ 200) c0) = None
           ∧ c = self (Initialize (world ∅ 200) c0))
      ∧ (∀ c, result (CreateChatClient (world ∅ 200) ProviderOllama) = inr c ->
           providerOf c = ProviderOllama).
Proof.
  split.
  - apply (factory_dispatch (world ∅ 200) "mistral").
    intros Hin. apply fresh_supported in Hin as [c0 Hc0]. discriminate.
  - apply (factory_dispatch (world ∅ 200) ProviderOllama).
    apply fresh_supported. by eexists.
Defined.

(** ** C8: the Ollama endpoint and its probe *)

(** C8.  [OllamaClient.Initialize] probes "http://localhost:11434" when
    [OLLAMA_URL] is unset; it fails exactly when the GET on the endpoint
    returns a transport error or a status other than 200; it reads no
    variable but [OLLAMA_URL] and [OLLAMA_MODEL], so no credential, and the
    factory asks for none before it calls it. *)
Theorem ollama_initialize_probe (w : World) (o : Ollama.OllamaClient) :
  let r := Ollama.Initialize w o in
  let url := Ollama.serverURL (self r) in
  (env w !! "OLLAMA_URL" = None -> url = "http://localhost:11434")
  ∧ (is_Some (failure r) <->
       (∃ err, httpGet w url = inl err)
       ∨ (∃ status body, httpGet w url = inr (status, body) ∧ status ≠ 200%Z))
  ∧ trace r = [NewHTTPClient 60; HTTPGet url]
  ∧ (∀ e' : gmap string string,
       e' !! "OLLAMA_URL" = env w !! "OLLAMA_URL" ->
       e' !! "OLLAMA_MODEL" = env w !! "OLLAMA_MODEL" ->
       Ollama.Initialize (withEnv w e') o = r)
  ∧ CreateChatClient w ProviderOllama = initialized w (OllamaClient Ollama.zero).
Proof.
  intros r url. split; [|split; [|split; [|split]]].
  - intros Hunset. subst url r. unfold Ollama.Initialize.
    rewrite (getenv_unset _ _ Hunset). simpl.
    destruct (httpGet w _) as [err|[status body]]; [done|]. by case_decide.
  - subst url r. unfold Ollama.Initialize.
    set (u := if decide (os_Getenv (env w) "OLLAMA_URL" = "")
              then "http://localhost:11434"
              else os_Getenv (env w) "OLLAMA_URL").
    assert (Hurl : ∀ t m e f, Ollama.serverURL
              (self (match httpGet w u with
                     | inl err => mkInit t m (e err)
                     | inr (status, _) =>
                         if decide (status ≠ 200%Z)
                         then mkInit t m (f status) else mkInit t m None
                     end)) = Ollama.serverURL m).
    { intros. destruct (httpGet w u) as [err|[status body]]; [done|].
      by case_decide. }
    rewrite Hurl. simpl.
    destruct (httpGet w u) as [err|[status body]] eqn:Hget.
    + simpl. split; [eauto|]. intros _. by eexists.
    + case_decide as Hstatus; simpl.
      * split; [|intros _; by eexists].
        intros _. right. by exists status, body.
      * split; [by intros [? ?]|].
        intros [[err [=]] | (status' & body' & [= <- <-] & Hne)]. done.
  - subst url r. unfold Ollama.Initialize.
    destruct (httpGet w _) as [err|[status body]]; [done|]. by case_decide.
  - intros e' Hurl Hmodel. subst r. unfold Ollama.Initialize. simpl.
    by rewrite (getenv_agree _ _ _ Hurl), (getenv_agree _ _ _ Hmodel).
  - reflexivity.
Qed.

(** C8, witness: no [OLLAMA_URL]; a server that answers 200, one that
    answers 503 and none at all; an environment that holds some key. *)
Lemma ollama_probe_witness :
  Ollama.serverURL (self (Ollama.Initialize (world ∅ 200) Ollama.zero))
    = "http://localhost:11434"
  ∧ ¬ is_Some (failure (Ollama.Initialize (world ∅ 200) Ollama.zero))
  ∧ is_Some (failure (Ollama.Initialize (world ∅ 503) Ollama.zero))
  ∧ is_Some (failure (Ollama.Initialize (offline ∅) Ollama.zero))
  ∧ Ollama.Initialize
      (withEnv (world ∅ 200) {["OPENAI_API_KEY" := sampleKey]}) Ollama.zero
    = Ollama.Initialize (world ∅ 200) Ollama.zero.
Proof.
  split; [|split; [|split; [|split]]].
  - apply (ollama_initialize_probe (world ∅ 200) Ollama.zero). reflexivity.
  - rewrite (proj1 (proj2 (ollama_initialize_probe (world ∅ 200) Ollama.zero))).
    intros [[err [=]] | (status & body & [= <- _] & Hne)]. done.
  - apply (ollama_initialize_probe (world ∅ 503) Ollama.zero).
    right. by exists 503%Z, "Ollama is running".
  - apply (ollama_initialize_probe (offline ∅) Ollama.zero).
    left. by eexists.
  - apply (ollama_initialize_probe (world ∅ 200) Ollama.zero); reflexivity.
Defined.

(** ** C5 and C10: the single-shot adapter *)





(** C10.  [SambaClient.SendMessage] changes its client only by a success
    with content.  Whenever it returns an error the client is exactly the
    one before the call, the user message of the failed turn included; each
    of the failure paths (marshalling, building the request, transport,
    timeout, a status outside 2xx, decoding) returns an error; and a call
    that returns a nil error either returns the empty string and leaves the
    client unchanged, or returns content and commits the prompt and the
    reply, in this order, after the earlier messages. *)
Theorem samba_send_is_atomic (s : Samba.SambaClient) (message : string)
    (x : Samba.Exchange) :
  (∀ s' text elapsed err,
      Samba.SendMessage s message x = Return s' text elapsed (Some err) ->
      s' = s ∧ text = "")
  ∧ (∀ s' text elapsed,
      Samba.SendMessage s message x = Return s' text elapsed None ->
      (text = "" ∧ s' = s)
      ∨ (text ≠ "" ∧
         s' = Samba.commit s
                (Samba.messages s ++
                   [Samba.mkMessage UserRole message;
                    Samba.mkMessage AssistantRole text])))
  ∧ (is_Some (Samba.httpClient s) ->
     (is_Some (Samba.marshal x)
      ∨ is_Some (Samba.newRequest x)
      ∨ (∃ err, Samba.do x = inl err)
      ∨ (∃ resp, Samba.do x = inr resp
                 ∧ ((Samba.StatusCode resp < 200 ∨ 300 <= Samba.StatusCode resp)%Z
                    ∨ ∃ err, Samba.Unmarshal resp = inl err))) ->
     ∃ err, Samba.SendMessage s message x = Return s "" 0%Z (Some err)).
Proof.
  split; [|split].
  - intros s' text elapsed err. unfold Samba.SendMessage.
    destruct (Samba.marshal x); [by intros [= <- <- _ _]|].
    destruct (Samba.newRequest x); [by intros [= <- <- _ _]|].
    destruct (Samba.httpClient s); [|done].
    destruct (Samba.do x) as [e|resp].
    { by destruct (Samba.deadlineExceeded x); intros [= <- <- _ _]. }
    case_decide; [by intros [= <- <- _ _]|].
    destruct (Samba.Unmarshal resp) as [e|completion];
      [by intros [= <- <- _ _]|].
    destruct (Samba.Choices completion) as [|first rest]; [done|].
    by case_decide.
  - intros s' text elapsed. unfold Samba.SendMessage.
    destruct (Samba.marshal x); [done|].
    destruct (Samba.newRequest x); [done|].
    destruct (Samba.httpClient s); [|done].
    destruct (Samba.do x) as [e|resp].
    { by destruct (Samba.deadlineExceeded x). }
    case_decide; [done|].
    destruct (Samba.Unmarshal resp) as [e|completion]; [done|].
    destruct (Samba.Choices completion) as [|first rest];
      [intros [= <- <- _]; by left|].
    case_decide; intros [= <- <- _]; [by left|].
    right. split; [done|]. by rewrite <- app_assoc.
  - intros [h Hclient] Hpath. unfold Samba.SendMessage.
    destruct (Samba.marshal x) as [e|]; [by eexists|].
    destruct (Samba.newRequest x) as [e|]; [by eexists|].
    rewrite Hclient.
    destruct Hpath as [[? [=]] | [[? [=]] | [[e He] | (resp & Hresp & Hbad)]]].
    + rewrite He. destruct (Samba.deadlineExceeded x); by eexists.
    + rewrite Hresp. case_decide as Hstatus; [by eexists|].
      destruct Hbad as [Hrange | [e He]].
      * lia.
      * rewrite He. by eexists.
Qed.

(** C10, witness: a reply with status 500 leaves the client untouched; a
    reply with content commits the prompt and the reply. *)
Lemma samba_atomic_witness :
  (∃ err, Samba.SendMessage sambaReady "hi" (sambaAnswer 500 [Samba.mkChoice "x"])
          = Return sambaReady "" 0%Z (Some err))
  ∧ (sambaReady = sambaReady ∧ "" = "")
  ∧ (("Hello" = "" ∧
      Samba.commit sambaReady
        [Samba.mkMessage UserRole "hi"; Samba.mkMessage AssistantRole "Hello"]
      = sambaReady)
     ∨ ("Hello" ≠ "" ∧
        Samba.commit sambaReady
          [Samba.mkMessage UserRole "hi"; Samba.mkMessage AssistantRole "Hello"]
        = Samba.commit sambaReady
            (Samba.messages sambaReady ++
               [Samba.mkMessage UserRole "hi";
                Samba.mkMessage AssistantRole "Hello"]))).
Proof.
  split; [|split].
  - apply (samba_send_is_atomic sambaReady "hi"
             (sambaAnswer 500 [Samba.mkChoice "x"])).
    + by eexists.
    + right. right. right. eexists. split; [reflexivity|]. left. simpl. lia.
  - apply (proj1 (samba_send_is_atomic sambaReady "hi"
                    (sambaAnswer 500 [Samba.mkChoice "x"]))
             sambaReady "" 0%Z (errorString "API request failed (500): {}")).
    reflexivity.
  - apply (proj1 (proj2 (samba_send_is_atomic sambaReady "hi"
                           (sambaAnswer 200 [Samba.mkChoice "Hello"])))
             _ "Hello" 1500%Z).
    reflexivity.
Defined.

(** ** C6: the Ollama receive loop *)



(** ** C9: the loop of the three go-openai adapters *)

Lemma deltas_skip_empty (before after : list openai.ChatCompletionStreamResponse) :
  deltas (before ++ noChoices :: after) = deltas (before ++ after).
Proof.
  unfold deltas. rewrite !filter_app, filter_cons_False; [done|].
  intros H. by apply H.
Qed.

(** C9, counterexample.  A Groq stream delivers "Hel" and is then cut: the
    read fails with [io.ErrUnexpectedEOF], which is not the end-of-stream
    signal [io.EOF].  The loop does not abort: the call returns a nil error
    and records the truncated "Hel" as the assistant's message. *)
Lemma sse_cut_stream_is_not_aborted :
  io_ErrUnexpectedEOF ≠ io_EOF
  ∧ Groq.SendMessage sseReady "hi" (sseAnswer [delta "Hel"] io_ErrUnexpectedEOF)
    = Return
        (SSE.append (SSE.append sseReady (openai.mkMessage UserRole "hi"))
           (openai.mkMessage AssistantRole "Hel"))
        "Hel" 1500%Z None.
Proof. split; [discriminate | reflexivity]. Qed.

(** C9, amended.  For OpenAI, Groq and Together, once the stream is open:
    the call never panics, an event without choices is skipped and the loop
    goes on, and the text is the concatenation of the first choice's delta
    over exactly the events that have a choice.  The loop ends normally, and
    the text is recorded as the assistant's message, when the receive error
    is [io.EOF] or any error whose text contains "EOF"; on every other
    receive error the call returns the partial text with the error and
    records no assistant message. *)
Theorem sse_stream_reassembly
    (send : SSE.Adapter -> string -> SSE.Exchange -> Outcome SSE.Adapter)
    (a : SSE.Adapter) (message : string) (x : SSE.Exchange)
    (stream : Stream openai.ChatCompletionStreamResponse) :
  send ∈ [OpenAI.SendMessage; Groq.SendMessage; Together.SendMessage] ->
  is_Some (SSE.client a) ->
  SSE.create x = inr stream ->
  let asked := SSE.append a (openai.mkMessage UserRole message) in
  let text := deltas (frames stream) in
  send a message x ≠ Panic
  ∧ (∀ before after closing acc,
       SSE.receive (before ++ noChoices :: after) closing acc
         = SSE.receive (before ++ after) closing acc)
  ∧ (closing stream = io_EOF
     ∨ strings_Contains (Error (closing stream)) "EOF" = true ->
     send a message x
       = Return (SSE.append asked (openai.mkMessage AssistantRole text))
           text (SSE.since x) None)
  ∧ (closing stream ≠ io_EOF ->
     strings_Contains (Error (closing stream)) "EOF" = false ->
     send a message x
       = Return asked text (SSE.since x)
           (Some (Errorf_w "stream error: " (closing stream)))).
Proof.
  intros Hsend Hclient Hcreate asked text.
  pose proof (sse_send_spec send a message x stream Hsend Hclient Hcreate)
    as Hspec.
  simpl in Hspec. fold asked text in Hspec.
  split; [|split; [|split]].
  - rewrite Hspec. by destruct (takenForEOF (closing stream)).
  - intros before after closing acc.
    by rewrite !sse_receive_spec, deltas_skip_empty.
  - intros Hend. rewrite Hspec.
    replace (takenForEOF (closing stream)) with true; [done|].
    unfold takenForEOF. destruct Hend as [-> | ->]; [done|].
    by rewrite orb_true_r.
  - intros Hne Hnone. rewrite Hspec.
    unfold takenForEOF. by rewrite (is_io_EOF_false _ Hne), Hnone.
Qed.

(** C9, witness: a stream with an event without choices, ended by
    [io.EOF], and the same stream ended by a reset connection. *)
Lemma sse_reassembly_witness :
  OpenAI.SendMessage sseReady "hi"
      (sseAnswer [delta "Hel"; noChoices; delta "lo"] io_EOF)
    = Return
        (SSE.append (SSE.append sseReady (openai.mkMessage UserRole "hi"))
           (openai.mkMessage AssistantRole
              (deltas [delta "Hel"; noChoices; delta "lo"])))
        (deltas [delta "Hel"; noChoices; delta "lo"]) 1500%Z None
  ∧ OpenAI.SendMessage sseReady "hi"
      (sseAnswer [delta "Hel"; noChoices; delta "lo"] connectionReset)
    = Return (SSE.append sseReady (openai.mkMessage UserRole "hi"))
        (deltas [delta "Hel"; noChoices; delta "lo"]) 1500%Z
        (Some (Errorf_w "stream error: " connectionReset)).
Proof.
  split.
  - apply (sse_stream_reassembly OpenAI.SendMessage sseReady "hi"
             (sseAnswer [delta "Hel"; noChoices; delta "lo"] io_EOF)
             (mkStream [delta "Hel"; noChoices; delta "lo"] io_EOF));
      [set_solver | by eexists | reflexivity | by left].
  - apply (sse_stream_reassembly OpenAI.SendMessage sseReady "hi"
             (sseAnswer [delta "Hel"; noChoices; delta "lo"] connectionReset)
             (mkStream [delta "Hel"; noChoices; delta "lo"] connectionReset));
      [set_solver | by eexists | reflexivity | discriminate | reflexivity].
Defined.

Example deltas_of_the_witness :
  deltas [delta "Hel"; noChoices; delta "lo"] = "Hello".
Proof. reflexivity. Qed.

(** * Further properties of the code *)

(** ** Text, continued *)

Lemma length_append (s t : string) :
  String.length (s +:+ t) = String.length s + String.length t.
Proof.
  induction s as [|a s IH]; [reflexivity|].
  rewrite append_cons. simpl. by rewrite IH.
Qed.

Lemma length_substring (s : string) (n m : nat) :
  n + m <= String.length s -> String.length (String.substring n m s) = m.
Proof.
  revert n m. induction s as [|a s IH]; intros n m Hlen; simpl in *.
  - destruct n, m; simpl; lia.
  - destruct n as [|n].
    + destruct m as [|m]; [done|]. simpl. rewrite IH; [done | lia].
    + apply IH. lia.
Qed.

(** ** internal/utils: redaction and validation of keys *)

(** X1.  [RedactAPIKey] never returns more than fourteen bytes, and for a key
    of eight bytes or more it returns eleven: four, three dots, four. *)
Theorem redacted_key_is_short (key : string) :
  String.length (RedactAPIKey key) <= 14
  ∧ (8 <= String.length key -> String.length (RedactAPIKey key) = 11).
Proof.
  unfold RedactAPIKey. case_decide as Hshort.
  - split; [simpl; lia | lia].
  - assert (String.length
              (String.substring 0 4 key +:+ "..." +:+
               String.substring (String.length key - 4) 4 key) = 11) as ->.
    { rewrite !length_append, !length_substring by lia. reflexivity. }
    split; [lia | done].
Qed.

(** X1, witness. *)
Lemma redacted_key_witness :
  String.length (RedactAPIKey sampleKey) = 11.
Proof. apply (redacted_key_is_short sampleKey). simpl. lia. Defined.

(** X2.  A key of exactly eight bytes is not hidden at all by [RedactAPIKey]:
    the four bytes before the dots and the four after them are the key. *)
Theorem eight_byte_key_is_disclosed (key : string) :
  String.length key = 8 ->
  String.substring 0 4 (RedactAPIKey key)
    +:+ String.substring 7 4 (RedactAPIKey key) = key.
Proof.
  intros Hlen. unfold RedactAPIKey. rewrite decide_False by lia. rewrite Hlen.
  do 8 (destruct key as [|? key]; [discriminate|]).
  destruct key; [reflexivity | discriminate].
Qed.

(** X2, witness. *)
Lemma eight_byte_key_witness :
  String.substring 0 4 (RedactAPIKey "sk-12345")
    +:+ String.substring 7 4 (RedactAPIKey "sk-12345") = "sk-12345".
Proof. apply (eight_byte_key_is_disclosed "sk-12345"). reflexivity. Defined.

Lemma validated_key_shape (w : World) (key provider : string) :
  ValidateAPIKey w key provider = true ->
  20 <= String.length key
  ∧ (provider = "openai" -> String.substring 0 3 key = "sk-").
Proof.
  unfold ValidateAPIKey.
  case_decide; [done|]. case_decide; [done|].
  destruct (negb _); [done|].
  case_decide as Hopenai; [|intros _; split; [lia | done]].
  rewrite bool_decide_true by lia. simpl.
  destruct (String.eqb_spec (String.substring 0 3 key) "sk-"); [|done].
  intros _. split; [lia | done].
Qed.

(** X3.  A key [ValidateAPIKey] accepts has at least twenty bytes, and for the
    provider "openai" it starts with "sk-"; a key accepted for "openai" is
    accepted for every provider, and for providers other than "openai" the
    answer does not depend on the provider. *)
Theorem accepted_keys (w : World) (key provider : string) :
  (ValidateAPIKey w key provider = true ->
     20 <= String.length key
     ∧ (provider = "openai" -> String.substring 0 3 key = "sk-"))
  ∧ (ValidateAPIKey w key "openai" = true ->
     ValidateAPIKey w key provider = true)
  ∧ (∀ other, provider ≠ "openai" -> other ≠ "openai" ->
     ValidateAPIKey w key provider = ValidateAPIKey w key other).
Proof.
  split; [apply validated_key_shape|]. unfold ValidateAPIKey. split.
  - case_decide; [done|]. case_decide; [done|].
    destruct (negb _); [done|].
    rewrite decide_True by done.
    case_decide; [done|]. by intros _.
  - intros other Hp Hother. by rewrite !(decide_False (P := _ = "openai")).
Qed.

(** X3, witness. *)
Lemma accepted_keys_witness :
  (20 <= String.length sampleKey
   ∧ ("openai" = "openai" -> String.substring 0 3 sampleKey = "sk-"))
  ∧ ValidateAPIKey (world ∅ 200) sampleKey "groq" = true
  ∧ ValidateAPIKey (world ∅ 200) foreignKey "groq"
    = ValidateAPIKey (world ∅ 200) foreignKey "samba".
Proof.
  split; [|split].
  - apply (accepted_keys (world ∅ 200) sampleKey "openai"). reflexivity.
  - apply (accepted_keys (world ∅ 200) sampleKey "groq"). reflexivity.
  - apply (accepted_keys (world ∅ 200) foreignKey "groq"); discriminate.
Defined.

(** ** The adapters: what a call leaves behind *)

Lemma ollama_send_messages (o o' : Ollama.OllamaClient) (message text : string)
    (x : Ollama.Exchange) (elapsed : Duration) (err : option error) :
  Ollama.SendMessage o message x = Return o' text elapsed err ->
  Ollama.messages o' =
    Ollama.messages o ++
      Ollama.mkMessage UserRole message ::
      (if succeeded (text, err) then [Ollama.mkMessage AssistantRole text]
       else [])
  ∧ Ollama.GetModelName o' = Ollama.GetModelName o
  ∧ Ollama.serverURL o' = Ollama.serverURL o.
Proof.
  unfold Ollama.SendMessage. simpl.
  destruct (Ollama.marshal x); [by intros [= <- <- _ <-]|].
  destruct (Ollama.httpClient o); [|done].
  destruct (Ollama.post x) as [e|resp]; [by intros [= <- <- _ <-]|].
  case_decide; [by intros [= <- <- _ <-]|].
  destruct (Ollama.receive _ _ _); intros [= <- <- _ <-]; simpl; [|done].
  by rewrite <- app_assoc.
Qed.

Lemma sse_send_messages
    (send : SSE.Adapter -> string -> SSE.Exchange -> Outcome SSE.Adapter)
    (a a' : SSE.Adapter) (message text : string)
    (x : SSE.Exchange) (elapsed : Duration) (err : option error) :
  send ∈ [OpenAI.SendMessage; Groq.SendMessage; Together.SendMessage] ->
  send a message x = Return a' text elapsed err ->
  SSE.messages a' =
    SSE.messages a ++
      openai.mkMessage UserRole message ::
      (if succeeded (text, err) then [openai.mkMessage AssistantRole text]
       else [])
  ∧ SSE.selectedModel a' = SSE.selectedModel a
  ∧ SSE.client a' = SSE.client a.
Proof.
  intros Hsend.
  each_of Hsend;
    unfold OpenAI.SendMessage, Groq.SendMessage, Together.SendMessage; simpl;
    (destruct (SSE.client a) eqn:Hclient; [|done]);
    (destruct (SSE.create x) as [e|stream]; [by intros [= <- <- _ <-]|]);
    (destruct (SSE.receive _ _ _); intros [= <- <- _ <-]; simpl; [|done]);
    by rewrite <- app_assoc.
Qed.

(** X4.  Whatever a call of [SendMessage] returns, a streaming adapter (Ollama,
    OpenAI, Groq, Together, Gemini) then holds the conversation it held
    before, followed by the user message, followed by the returned text as
    the assistant's message exactly when the error is nil; the selected
    model is the same. *)
Theorem streaming_call_appends :
  (∀ o o' message text x elapsed err,
      Ollama.SendMessage o message x = Return o' text elapsed err ->
      Ollama.messages o' =
        Ollama.messages o ++
          Ollama.mkMessage UserRole message ::
          (if succeeded (text, err) then [Ollama.mkMessage AssistantRole text]
           else [])
      ∧ Ollama.GetModelName o' = Ollama.GetModelName o)
  ∧ (∀ send,
      send ∈ [OpenAI.SendMessage; Groq.SendMessage; Together.SendMessage] ->
      ∀ a a' message text x elapsed err,
        send a message x = Return a' text elapsed err ->
        SSE.messages a' =
          SSE.messages a ++
            openai.mkMessage UserRole message ::
            (if succeeded (text, err) then [openai.mkMessage AssistantRole text]
             else [])
        ∧ SSE.selectedModel a' = SSE.selectedModel a)
  ∧ (∀ g g' message text x elapsed err,
      Gemini.SendMessage g message x = Return g' text elapsed err ->
      Gemini.messages g' =
        Gemini.messages g ++
          geminiUser message ::
          (if succeeded (text, err) then [geminiAssistant text] else [])
      ∧ Gemini.GetModelName g' = Gemini.GetModelName g).
Proof.
  split; [|split].
  - intros o o' message text x elapsed err Hsend.
    by destruct (ollama_send_messages _ _ _ _ _ _ _ Hsend) as (? & ? & _).
  - intros send Hin a a' message text x elapsed err Hsend.
    by destruct (sse_send_messages _ _ _ _ _ _ _ _ Hin Hsend) as (? & ? & _).
  - intros g g' message text x elapsed err Hsend.
    split; [by eapply gemini_send_messages|].
    revert Hsend. unfold Gemini.SendMessage. simpl.
    destruct (Gemini.model g); [|done].
    by destruct (Gemini.receive _ _ _); intros [= <- _ _ _].
Qed.

(** X4, witness. *)
Lemma streaming_call_witness :
  Ollama.messages (Ollama.append ollamaReady (Ollama.mkMessage UserRole "hi"))
    = Ollama.messages ollamaReady ++
        Ollama.mkMessage UserRole "hi" ::
        (if succeeded ("", Some (Errorf_w "failed to send request: "
                                   (errorString "connection refused")))
         then [Ollama.mkMessage AssistantRole ""] else [])
  ∧ Ollama.GetModelName
      (Ollama.append ollamaReady (Ollama.mkMessage UserRole "hi"))
    = Ollama.GetModelName ollamaReady.
Proof.
  apply (proj1 streaming_call_appends ollamaReady _ "hi" "" ollamaRefused 0%Z).
  reflexivity.
Defined.

(** X5.  When the request itself fails, before any text is streamed (Ollama:
    the POST fails or is answered with a status other than 200; OpenAI,
    Groq, Together: the stream cannot be created), [SendMessage] returns
    the empty string, a zero duration and an error. *)
Theorem refused_request_returns_nothing :
  (∀ o message x,
      Ollama.marshal x = None ->
      is_Some (Ollama.httpClient o) ->
      (∃ e, Ollama.post x = inl e)
      ∨ (∃ resp, Ollama.post x = inr resp ∧ Ollama.StatusCode resp ≠ 200%Z) ->
      ∃ err, Ollama.SendMessage o message x
             = Return (Ollama.append o (Ollama.mkMessage UserRole message))
                 "" 0%Z (Some err))
  ∧ (∀ send,
      send ∈ [OpenAI.SendMessage; Groq.SendMessage; Together.SendMessage] ->
      ∀ a message x e,
        is_Some (SSE.client a) ->
        SSE.create x = inl e ->
        ∃ err, send a message x
               = Return (SSE.append a (openai.mkMessage UserRole message))
                   "" 0%Z (Some err)).
Proof.
  split.
  - intros o message x Hmarshal [h Hclient] Hpost.
    unfold Ollama.SendMessage. simpl. rewrite Hmarshal, Hclient.
    destruct Hpost as [[e ->] | (resp & -> & Hstatus)]; [by eexists|].
    rewrite decide_True by done. by eexists.
  - intros send Hin a message x e [h Hclient] Hcreate.
    each_of Hin;
      unfold OpenAI.SendMessage, Groq.SendMessage, Together.SendMessage; simpl;
      rewrite Hclient, Hcreate; by eexists.
Qed.

(** X5, witness. *)
Lemma refused_request_witness :
  (∃ err, Ollama.SendMessage ollamaReady "hi" ollamaRefused
          = Return (Ollama.append ollamaReady (Ollama.mkMessage UserRole "hi"))
              "" 0%Z (Some err))
  ∧ (∃ err, OpenAI.SendMessage sseReady "hi" sseRefused
            = Return (SSE.append sseReady (openai.mkMessage UserRole "hi"))
                "" 0%Z (Some err)).
Proof.
  destruct refused_request_returns_nothing as [Hollama Hsse]. split.
  - apply Hollama; [reflexivity | by eexists | left; by eexists].
  - apply (Hsse OpenAI.SendMessage ltac:(set_solver) sseReady "hi" sseRefused
             (APIError 401 "invalid_api_key" "Incorrect API key"
                "error, status code: 401")); [by eexists | reflexivity].
Defined.

(** X6.  After a turn that failed, the next successful turn of a streaming
    adapter leaves two user messages in a row in the conversation: the
    question of the failed turn, the question of the new turn, then the
    answer. *)
Theorem retry_leaves_two_questions :
  (∀ o final m1 m2 x1 x2 t1 e1 t2,
      session Ollama.SendMessage o [(m1, x1); (m2, x2)]
        = Some (final, [(t1, Some e1); (t2, None)]) ->
      Ollama.messages final
        = Ollama.messages o ++ [Ollama.mkMessage UserRole m1;
                                Ollama.mkMessage UserRole m2;
                                Ollama.mkMessage AssistantRole t2])
  ∧ (∀ send,
      send ∈ [OpenAI.SendMessage; Groq.SendMessage; Together.SendMessage] ->
      ∀ a final m1 m2 x1 x2 t1 e1 t2,
        session send a [(m1, x1); (m2, x2)]
          = Some (final, [(t1, Some e1); (t2, None)]) ->
        SSE.messages final
          = SSE.messages a ++ [openai.mkMessage UserRole m1;
                               openai.mkMessage UserRole m2;
                               openai.mkMessage AssistantRole t2])
  ∧ (∀ g final m1 m2 x1 x2 t1 e1 t2,
      session Gemini.SendMessage g [(m1, x1); (m2, x2)]
        = Some (final, [(t1, Some e1); (t2, None)]) ->
      Gemini.messages final
        = Gemini.messages g ++ [geminiUser m1; geminiUser m2;
                                geminiAssistant t2]).
Proof.
  split; [|split].
  - intros o final m1 m2 x1 x2 t1 e1 t2. simpl.
    destruct (Ollama.SendMessage o m1 x1) as [o1 r1 d1 err1|] eqn:H1; [|done].
    destruct (Ollama.SendMessage o1 m2 x2) as [o2 r2 d2 err2|] eqn:H2; [|done].
    intros [= -> -> -> -> ->].
    apply ollama_send_messages in H1 as (H1 & _).
    apply ollama_send_messages in H2 as (H2 & _).
    rewrite H2, H1. simpl. by rewrite <- app_assoc.
  - intros send Hin a final m1 m2 x1 x2 t1 e1 t2. simpl.
    destruct (send a m1 x1) as [a1 r1 d1 err1|] eqn:H1; [|done].
    destruct (send a1 m2 x2) as [a2 r2 d2 err2|] eqn:H2; [|done].
    intros [= -> -> -> -> ->].
    apply (sse_send_messages _ _ _ _ _ _ _ _ Hin) in H1 as (H1 & _).
    apply (sse_send_messages _ _ _ _ _ _ _ _ Hin) in H2 as (H2 & _).
    rewrite H2, H1. simpl. by rewrite <- app_assoc.
  - intros g final m1 m2 x1 x2 t1 e1 t2. simpl.
    destruct (Gemini.SendMessage g m1 x1) as [g1 r1 d1 err1|] eqn:H1; [|done].
    destruct (Gemini.SendMessage g1 m2 x2) as [g2 r2 d2 err2|] eqn:H2; [|done].
    intros [= -> -> -> -> ->].
    apply gemini_send_messages in H1. apply gemini_send_messages in H2.
    rewrite H2, H1. simpl. by rewrite <- app_assoc.
Qed.

(** X6, witness. *)
Lemma retry_witness :
  SSE.messages
    (SSE.append
       (SSE.append (SSE.append sseReady (openai.mkMessage UserRole "hi"))
          (openai.mkMessage UserRole "hi"))
       (openai.mkMessage AssistantRole "Hello"))
    = SSE.messages sseReady ++ [openai.mkMessage UserRole "hi";
                                openai.mkMessage UserRole "hi";
                                openai.mkMessage AssistantRole "Hello"].
Proof.
  apply (proj1 (proj2 retry_leaves_two_questions) Groq.SendMessage
           ltac:(set_solver) sseReady _ "hi" "hi"
           (sseAnswer [delta "Hel"] connectionReset)
           (sseAnswer [delta "Hel"; delta "lo"] io_EOF)
           "Hel" (Errorf_w "stream error: " connectionReset) "Hello").
  reflexivity.
Defined.

(** ** Initialization, continued *)

Lemma alias_models_nonempty (c : ChatInterface) (alias model : string) :
  aliasTable c !! alias = Some model -> model ≠ "".
Proof.
  intros Hlookup Hempty. subst model.
  assert (Hall : map_Forall (fun _ m => m ≠ "") (aliasTable c)).
  { destruct c; simpl; unfold Together.togetherModels, Ollama.ollamaModels,
      Groq.groqModels, Samba.sambaModels, OpenAI.openaiModels,
      Gemini.geminiModels; simpl;
      repeat (apply map_Forall_insert_2; [done|]); apply map_Forall_empty. }
  by apply (Hall alias "").
Qed.

(** X7.  For every provider, when the model-alias variable holds an alias of
    the provider's table, a successful [Initialize] selects the model the
    table gives for it, and [GetModelName] returns that model. *)
Theorem known_alias_selects_its_model (w : World) (c : ChatInterface)
    (alias model : string) :
  env w !! aliasVar c = Some alias ->
  aliasTable c !! alias = Some model ->
  failure (Initialize w c) = None ->
  GetModelName (self (Initialize w c)) = model.
Proof.
  intros Hset Hknown Hok. rewrite (initialized_model w c Hok). simpl.
  unfold os_Getenv, map_index. rewrite Hset. simpl. rewrite Hknown. simpl.
  rewrite decide_False; [done|]. by eapply alias_models_nonempty.
Qed.

(** X7, witness. *)
Lemma known_alias_witness :
  GetModelName (self (Initialize mistralWorld (OllamaClient Ollama.zero)))
    = "mistral:latest".
Proof.
  apply (known_alias_selects_its_model mistralWorld (OllamaClient Ollama.zero)
           "mistral" "mistral:latest"); reflexivity.
Defined.

(** A client comes out of the factory only as the result of a successful
    [Initialize] on the zero value of its type. *)
Lemma created_is_initialized (w : World) (p : Provider) (c : ChatInterface) :
  result (CreateChatClient w p) = inr c ->
  ∃ c0, fresh p = Some c0 ∧ failure (Initialize w c0) = None
        ∧ c = self (Initialize w c0).
Proof.
  pose proof (create_spec w p) as Hspec.
  destruct (fresh p) as [c0|]; [|by rewrite Hspec].
  assert (Hinit : result (initialized w c0) = inr c ->
            failure (Initialize w c0) = None ∧ c = self (Initialize w c0)).
  { unfold initialized. destruct (failure (Initialize w c0)); [done|].
    by intros [= <-]. }
  intros Hcreated. exists c0. split; [done|].
  destruct (credentialVar c0) as [key|].
  - case_decide.
    + destruct Hspec as [_ [err Herr]]. by rewrite Herr in Hcreated.
    + rewrite Hspec in Hcreated. by apply Hinit.
  - rewrite Hspec in Hcreated. by apply Hinit.
Qed.

(** X8.  A client the factory returns always has a model: [GetModelName] is
    never the empty string, whatever the environment holds. *)
Theorem created_client_has_a_model (w : World) (p : Provider)
    (c : ChatInterface) :
  result (CreateChatClient w p) = inr c -> GetModelName c ≠ "".
Proof.
  intros Hcreated.
  apply created_is_initialized in Hcreated as (c0 & _ & Hok & ->).
  rewrite (initialized_model w c0 Hok). simpl.
  case_decide as Hmodel; [apply defaultModel_nonempty | done].
Qed.

(** X8, witness. *)
Lemma created_client_witness :
  GetModelName (OllamaClient (self (Ollama.Initialize (world ∅ 200) Ollama.zero)))
    ≠ "".
Proof.
  apply (created_client_has_a_model (world ∅ 200) ProviderOllama). reflexivity.
Defined.

(** X9.  An OpenAI client the factory returns carries the key of the
    environment, and that key has at least twenty bytes and starts with
    "sk-". *)
Theorem openai_client_key (w : World) (c : ChatInterface) :
  result (CreateChatClient w ProviderOpenAI) = inr c ->
  ∃ o handle,
    c = OpenAIClient o ∧ SSE.client o = Some handle
    ∧ openai.authToken handle = os_Getenv (env w) "OPENAI_API_KEY"
    ∧ 20 <= String.length (openai.authToken handle)
    ∧ String.substring 0 3 (openai.authToken handle) = "sk-".
Proof.
  intros Hcreated.
  apply created_is_initialized in Hcreated as (c0 & [= <-] & Hok & ->).
  revert Hok. simpl. unfold OpenAI.Initialize.
  case_decide; [done|].
  destruct (ValidateAPIKey w _ "openai") eqn:Hvalid; [|done]. simpl. intros _.
  eexists _, _. repeat split; by apply (validated_key_shape w _ "openai").
Qed.

(** X9, witness. *)
Lemma openai_client_key_witness :
  ∃ o handle,
    self (Initialize openaiWorld (OpenAIClient SSE.zero)) = OpenAIClient o
    ∧ SSE.client o = Some handle
    ∧ openai.authToken handle = os_Getenv (env openaiWorld) "OPENAI_API_KEY"
    ∧ 20 <= String.length (openai.authToken handle)
    ∧ String.substring 0 3 (openai.authToken handle) = "sk-".
Proof. apply (openai_client_key openaiWorld). reflexivity. Defined.

(** X10.  [Initialize] can be repeated: in the same world, a second call on the
    receiver the first one left gives the same receiver, the same error and
    touches the same resources. *)
Theorem initialize_twice (w : World) (c : ChatInterface) :
  Initialize w (self (Initialize w c)) = Initialize w c.
Proof.
  destruct c as [t|o|g|s|o|g]; simpl.
  - unfold Together.Initialize. by case_decide.
  - unfold Ollama.Initialize.
    destruct (httpGet w _) as [err|[status body]]; [done|]. by case_decide.
  - unfold Groq.Initialize. by case_decide.
  - unfold Samba.Initialize. by case_decide.
  - unfold OpenAI.Initialize. case_decide; [done|].
    by destruct (ValidateAPIKey w _ _).
  - unfold Gemini.Initialize. case_decide; [done|].
    by destruct (genaiNewClient w _).
Qed.



(** ** The Gemini loop on a response it cannot read *)

Lemma gemini_unreadable_panics (resp : genai.GenerateContentResponse)
    (rest : list genai.GenerateContentResponse) (closing : error)
    (acc : string) :
  ¬ readable resp -> Gemini.receive (resp :: rest) closing acc = LoopPanic.
Proof.
  intros Hnot. simpl.
  destruct (genai.Candidates resp !! 0) as [candidate|] eqn:Hfirst; [|done].
  destruct (genai.CandidateContent candidate) as [content|] eqn:Hcontent;
    [|done].
  destruct (Gemini.collect (genai.Parts content) acc) eqn:Hcollect; [|done].
  exfalso. apply Hnot. exists candidate, content. repeat split; try done.
  clear -Hcollect. revert acc Hcollect.
  induction (genai.Parts content) as [|p parts IH]; intros acc; [constructor|].
  destruct p; simpl; [|done]. intros Hrest. constructor; [by eexists | eauto].
Qed.

(** X12.  A Gemini response with no candidate, with a candidate without content,
    or with a part that is not text makes [SendMessage] panic when it is
    reached: unlike the go-openai adapters, the loop indexes
    [Candidates[0]] without a test.  The responses before it are read; the
    text they carried is lost with the call. *)
Theorem gemini_unreadable_response_panics (g : Gemini.GeminiClient)
    (message : string) (x : Gemini.Exchange)
    (before after : list genai.GenerateContentResponse)
    (resp : genai.GenerateContentResponse) :
  frames (Gemini.reply x) = before ++ resp :: after ->
  Forall readable before ->
  ¬ readable resp ->
  Gemini.SendMessage g message x = Panic.
Proof.
  intros Hframes Hbefore Hnot. unfold Gemini.SendMessage. simpl.
  destruct (Gemini.model g); [|done].
  rewrite Hframes. clear Hframes.
  assert (Hloop : ∀ acc,
            Gemini.receive (before ++ resp :: after)
              (closing (Gemini.reply x)) acc = LoopPanic).
  { induction Hbefore as [|r before Hr _ IH]; intros acc; simpl.
    - by apply gemini_unreadable_panics.
    - destruct Hr as (candidate & content & -> & -> & Hparts).
      rewrite (gemini_collect_spec _ _ Hparts). apply IH. }
  by rewrite Hloop.
Qed.

(** X12, witness. *)
Lemma gemini_panic_witness :
  Gemini.SendMessage geminiReady "hi"
    (geminiAnswer [textResponse "Hel"; noCandidates] iterator_Done) = Panic.
Proof.
  apply (gemini_unreadable_response_panics geminiReady "hi"
           (geminiAnswer [textResponse "Hel"; noCandidates] iterator_Done)
           [textResponse "Hel"] [] noCandidates).
  - reflexivity.
  - repeat constructor. eexists _, _. repeat split; try reflexivity.
    repeat constructor. by eexists.
  - intros (candidate & content & Hfirst & _). discriminate.
Defined.

(** ** internal/assessment: the scores of a prompt *)

Definition wellScored (name : string) (r : assessment.AssessmentResult)
    : Prop :=
  assessment.Name r = name
  ∧ (1 <= assessment.Score r <= 5)%Z
  ∧ assessment.Rating r = assessment.label (assessment.Score r)
  ∧ assessment.Rating r ≠ "".

Lemma evaluators_score (t : GoText) (text : string) (wordCount : Z) :
  wellScored "Clarity" (assessment.evaluateClarity t text wordCount)
  ∧ wellScored "Relevance" (assessment.evaluateRelevance t text wordCount)
  ∧ wellScored "Specificity" (assessment.evaluateSpecificity t text wordCount)
  ∧ wellScored "Context" (assessment.evaluateContext t text wordCount)
  ∧ wellScored "Richness" (assessment.evaluateRichness t text wordCount)
  ∧ wellScored "Persona" (assessment.evaluatePersona t text wordCount)
  ∧ wellScored "Instruction" (assessment.evaluateInstruction t text wordCount)
  ∧ wellScored "Format" (assessment.evaluateFormat t text wordCount)
  ∧ wellScored "Audience" (assessment.evaluateAudience t text wordCount)
  ∧ wellScored "Tone" (assessment.evaluateTone t text wordCount)
  ∧ wellScored "Data" (assessment.evaluateData t text wordCount).
Proof.
  unfold wellScored.
  repeat split;
    unfold assessment.evaluateClarity, assessment.evaluateRelevance,
      assessment.evaluateSpecificity, assessment.evaluateContext,
      assessment.evaluateRichness, assessment.evaluatePersona,
      assessment.evaluateInstruction, assessment.evaluateFormat,
      assessment.evaluateAudience, assessment.evaluateTone,
      assessment.evaluateData;
    repeat case_match; simpl; try lia; done.
Qed.

(** The four criteria that look for a keyword never give the score 1. *)
Lemma keyword_scores (t : GoText) (text : string) (wordCount : Z) :
  (2 <= assessment.Score (assessment.evaluatePersona t text wordCount))%Z
  ∧ (2 <= assessment.Score (assessment.evaluateFormat t text wordCount))%Z
  ∧ (2 <= assessment.Score (assessment.evaluateAudience t text wordCount))%Z
  ∧ (2 <= assessment.Score (assessment.evaluateTone t text wordCount))%Z.
Proof.
  repeat split;
    unfold assessment.evaluatePersona, assessment.evaluateFormat,
      assessment.evaluateAudience, assessment.evaluateTone;
    repeat case_match; simpl; lia.
Qed.

Lemma totalPoints_insert (m : gmap string assessment.AssessmentResult)
    (k : string) (r : assessment.AssessmentResult) :
  m !! k = None ->
  assessment.totalPoints (<[k := r]> m)
    = (assessment.totalPoints m + assessment.Score r)%Z.
Proof.
  intros Hfresh. unfold assessment.totalPoints.
  rewrite map_fold_insert_L; [done | intros; lia | done].
Qed.

Lemma totalPoints_empty : assessment.totalPoints ∅ = 0%Z.
Proof. unfold assessment.totalPoints. by rewrite map_fold_empty. Qed.

Lemma criteria_size (t : GoText) (text : string) :
  size (assessment.evaluateAll t text) = 11.
Proof.
  unfold assessment.evaluateAll.
  repeat (rewrite map_size_insert_None;
          [|by rewrite ?lookup_insert_ne, ?lookup_empty]).
  by rewrite map_size_empty.
Qed.

(** X13.  Every criterion [evaluatePrompt] records is stored under its own name,
    has a score between 1 and 5, and carries the rating that [ScoreLabels]
    gives for that score; there are always eleven of them. *)
Theorem criteria_are_scored (t : GoText) (text : string) :
  size (assessment.evaluateAll t text) = 11
  ∧ ∀ name r,
      assessment.evaluateAll t text !! name = Some r ->
      assessment.Name r = name
      ∧ (1 <= assessment.Score r <= 5)%Z
      ∧ assessment.Rating r = assessment.label (assessment.Score r)
      ∧ assessment.Rating r ≠ "".
Proof.
  split; [apply criteria_size|].
  - intros name r. unfold assessment.evaluateAll.
    destruct (evaluators_score t text
                (Z.of_nat (length (strings_Fields t text))))
      as (? & ? & ? & ? & ? & ? & ? & ? & ? & ? & ?).
    repeat (rewrite lookup_insert; case_decide;
            [subst name; by intros [= <-]|]).
    by rewrite lookup_empty.
Qed.

(** X13, witness. *)
Lemma criteria_witness :
  (1 <= assessment.Score
          (assessment.evaluateClarity asciiText "Write a clear sentence." 4)
     <= 5)%Z.
Proof.
  apply (proj2 (criteria_are_scored asciiText "Write a clear sentence.")
           "Clarity").
  reflexivity.
Defined.

(** X14.  [evaluatePrompt] never panics; the overall score it gives lies between
    27 and 100 per cent, so the overall rating is never "Poor", the lowest
    of the six ratings [calculateOverallScore] can give. *)
Theorem overall_rating_is_never_poor (t : GoText) (text : string) :
  ∃ a, assessment.evaluatePrompt t text = Some a
       ∧ assessment.Criteria a = assessment.evaluateAll t text
       ∧ (27 <= assessment.TotalScore a <= 100)%Z
       ∧ assessment.OverallRating a ≠ "Poor".
Proof.
  pose proof (criteria_size t text) as Hsize.
  assert (Hbounds :
    (15 <= assessment.totalPoints (assessment.evaluateAll t text) <= 55)%Z).
  { unfold assessment.evaluateAll.
    pose proof (evaluators_score t text
                  (Z.of_nat (length (strings_Fields t text)))) as Hall.
    pose proof (keyword_scores t text
                  (Z.of_nat (length (strings_Fields t text)))) as Hkey.
    unfold wellScored in Hall.
    repeat (rewrite totalPoints_insert;
            [|by rewrite ?lookup_insert_ne, ?lookup_empty]).
    rewrite totalPoints_empty. lia. }
  unfold assessment.evaluatePrompt, assessment.calculateOverallScore.
  revert Hsize Hbounds.
  generalize (assessment.evaluateAll t text). intros criteria Hsize Hbounds.
  rewrite Hsize. change (Z.of_nat 11 * 5)%Z with 55%Z.
  rewrite decide_False by lia.
  assert (Hpercent :
    (27 <= (assessment.totalPoints criteria * 100) `quot` 55 <= 100)%Z).
  { split.
    - apply Z.quot_le_lower_bound; lia.
    - apply Z.quot_le_upper_bound; lia. }
  eexists. split; [reflexivity|].
  cbn [assessment.Criteria assessment.TotalScore assessment.OverallRating].
  split; [done|]. split; [done|].
  repeat case_decide; try done; lia.
Qed.

Lemma totalPoints_bounds (criteria : gmap string assessment.AssessmentResult) :
  map_Forall (fun _ r => (1 <= assessment.Score r <= 5)%Z) criteria ->
  (Z.of_nat (size criteria) <= assessment.totalPoints criteria
   <= Z.of_nat (size criteria) * 5)%Z.
Proof.
  induction criteria as [|k r m Hfresh IH] using map_ind; intros Hall.
  - rewrite totalPoints_empty, map_size_empty. simpl. lia.
  - apply map_Forall_insert in Hall as [Hr Hm]; [|done].
    rewrite totalPoints_insert, map_size_insert_None by done.
    specialize (IH Hm). lia.
Qed.

(** X15.  [calculateOverallScore] divides by the number of criteria: it panics
    exactly on an empty map.  On a map whose scores lie between 1 and 5 it
    returns a percentage between 20 and 100, and the rating "Poor" exactly
    when the percentage is below 25. *)
Theorem overall_score_of_a_map
    (criteria : gmap string assessment.AssessmentResult) :
  (assessment.calculateOverallScore criteria = None <-> criteria = ∅)
  ∧ (map_Forall (fun _ r => (1 <= assessment.Score r <= 5)%Z) criteria ->
     ∀ percentage rating,
       assessment.calculateOverallScore criteria = Some (percentage, rating) ->
       (20 <= percentage <= 100)%Z
       ∧ (rating = "Poor" <-> (percentage < 25)%Z)).
Proof.
  unfold assessment.calculateOverallScore. split.
  - case_decide as Hzero; split; try done.
    + intros _. apply map_size_empty_iff. lia.
    + intros ->. rewrite map_size_empty in Hzero. simpl in Hzero. lia.
  - intros Hall percentage rating.
    pose proof (totalPoints_bounds criteria Hall) as Hbounds.
    case_decide as Hzero; [done|].
    intros [= <- <-].
    assert (Hpercent :
      (20 <= (assessment.totalPoints criteria * 100)
               `quot` (Z.of_nat (size criteria) * 5) <= 100)%Z).
    { split.
      - apply Z.quot_le_lower_bound; lia.
      - apply Z.quot_le_upper_bound; lia. }
    split; [done|].
    repeat case_decide; split; try done; lia.
Qed.

(** X15, witness. *)
Lemma overall_score_witness :
  (20 <= 60 <= 100)%Z ∧ ("Good" = "Poor" <-> (60 < 25)%Z).
Proof.
  apply (proj2 (overall_score_of_a_map
                  {["Clarity" := assessment.scored "Clarity" 3 "fair"]})).
  - by apply map_Forall_singleton.
  - reflexivity.
Defined.

(** ** The history file *)

Lemma healthy_path (d : history.Store) :
  healthy d -> ∃ path, history.GetHistoryFilePath d = inr path.
Proof.
  intros ([home Hhome] & Hmkdir & _). unfold history.GetHistoryFilePath.
  rewrite Hhome, Hmkdir. by eexists.
Qed.



Lemma healthy_load (d : history.Store) (h : history.History) :
  healthy d ->
  history.LoadHistory (history.withFile d (Some (history.Encoded h))) = inr h.
Proof.
  intros Hd. destruct (healthy_path d Hd) as [path Hpath].
  destruct Hd as (_ & _ & Hread & _).
  unfold history.LoadHistory.
  change (history.GetHistoryFilePath (history.withFile d _))
    with (history.GetHistoryFilePath d).
  rewrite Hpath. simpl. by rewrite Hread.
Qed.



(** X17.  A history file that cannot be parsed stops all recording: [AddEntry]
    returns an error and leaves the store as it is, [LoadHistory] and
    [ShowHistory] fail, until [ClearHistory], which does not read the file,
    replaces it with an empty history. *)
Theorem garbled_file_stops_recording (d : history.Store) (parseError : error) :
  healthy d ->
  history.file d = Some (history.Garbled parseError) ->
  (∀ entry, ∃ err, history.AddEntry d entry = (d, Some err))
  ∧ (∃ err, history.LoadHistory d = inl err)
  ∧ (∀ count, ∃ err, history.ShowHistory d count = inl err)
  ∧ (history.ClearHistory d).2 = None
  ∧ history.LoadHistory (history.ClearHistory d).1
    = inr (history.mkHistory []).
Proof.
  intros Hd Hfile. destruct (healthy_path d Hd) as [path Hpath].
  assert (Hload : history.LoadHistory d
            = inl (Errorf_w "failed to parse history file: " parseError)).
  { destruct Hd as (_ & _ & Hread & _). unfold history.LoadHistory.
    by rewrite Hpath, Hfile, Hread. }
  assert (Hclear : history.ClearHistory d
            = (history.withFile d
                 (Some (history.Encoded (history.mkHistory []))), None)).
  { destruct Hd as (_ & _ & _ & Hmarshal & Hwrite).
    unfold history.ClearHistory, history.SaveHistory.
    by rewrite Hpath, Hmarshal, Hwrite. }
  repeat split.
  - intros entry. unfold history.AddEntry. rewrite Hload. by eexists.
  - by eexists.
  - intros count. unfold history.ShowHistory. rewrite Hload. by eexists.
  - by rewrite Hclear.
  - rewrite Hclear. simpl. by apply healthy_load.
Qed.

(** X17, witness. *)
Lemma garbled_file_witness :
  (∀ entry, ∃ err, history.AddEntry garbledStore entry = (garbledStore, Some err))
  ∧ (∃ err, history.LoadHistory garbledStore = inl err)
  ∧ (∀ count, ∃ err, history.ShowHistory garbledStore count = inl err)
  ∧ (history.ClearHistory garbledStore).2 = None
  ∧ history.LoadHistory (history.ClearHistory garbledStore).1
    = inr (history.mkHistory []).
Proof.
  apply (garbled_file_stops_recording garbledStore
           (errorString "unexpected end of JSON input")).
  - repeat split; try reflexivity. by eexists.
  - reflexivity.
Defined.

(** X18.  [AddEntry] is all or nothing as long as the write itself does not
    fail: when it returns an error the store is the one before the call. *)
Theorem failed_add_changes_nothing (d : history.Store) (entry : history.Entry)
    (err : error) :
  history.writeFile d = None ->
  (history.AddEntry d entry).2 = Some err ->
  (history.AddEntry d entry).1 = d.
Proof.
  intros Hwrite. unfold history.AddEntry, history.SaveHistory.
  destruct (history.LoadHistory d) as [e|h]; [done|].
  destruct (history.GetHistoryFilePath d); [done|].
  destruct (history.marshalIndent d); [done|].
  by rewrite Hwrite.
Qed.

(** X18, witness. *)
Lemma failed_add_witness :
  (history.AddEntry garbledStore (sampleEntry "hi" "Hello")).1 = garbledStore.
Proof.
  apply (failed_add_changes_nothing garbledStore (sampleEntry "hi" "Hello")
           (Errorf_w "failed to parse history file: "
              (errorString "unexpected end of JSON input")));
    reflexivity.
Defined.

(** ** Showing and truncating *)

Lemma imap_numbers {A : Type} (l : list A) (k : nat) :
  (imap (fun i x => ((Z.of_nat (k + i) + 1)%Z, x)) l).*1
    = seqZ (Z.of_nat k + 1) (Z.of_nat (length l))
  ∧ (imap (fun i x => ((Z.of_nat (k + i) + 1)%Z, x)) l).*2 = l.
Proof.
  revert k. induction l as [|x l IH]; intros k; [done|].
  rewrite imap_cons. simpl length. rewrite Nat2Z.inj_succ, seqZ_cons by lia.
  rewrite !fmap_cons. simpl.
  assert (Hshift : imap ((fun i x => ((Z.of_nat (k + i) + 1)%Z, x)) ∘ S) l
            = imap (fun i x => ((Z.of_nat (S k + i) + 1)%Z, x)) l).
  { apply imap_ext. intros i y _. simpl. do 2 f_equal. lia. }
  rewrite Hshift. destruct (IH (S k)) as [Hfst Hsnd]. split.
  - f_equal; [f_equal; lia|]. rewrite Hfst. f_equal; lia.
  - by rewrite Hsnd.
Qed.

(** X19.  [ShowHistory count] shows the last [count] entries when [count] is
    positive and smaller than the number of entries, and all of them
    otherwise, also for a zero or negative [count]; it numbers what it
    shows from 1, whatever the position in the file. *)
Theorem shown_entries (d : history.Store) (h : history.History) (count : Z) :
  history.LoadHistory d = inr h ->
  let n := Z.of_nat (length (history.Entries h)) in
  ∃ shown,
    history.ShowHistory d count = inr shown
    ∧ shown.*2 =
        (if decide (0 < count < n)%Z
         then drop (Z.to_nat (n - count)) (history.Entries h)
         else history.Entries h)
    ∧ Z.of_nat (length shown) = (if decide (0 < count < n)%Z then count else n)
    ∧ shown.*1 = seqZ 1 (Z.of_nat (length shown)).
Proof.
  intros Hload n. unfold history.ShowHistory. rewrite Hload. fold n.
  eexists. split; [reflexivity|].
  set (start := if bool_decide (0 < count)%Z && bool_decide (count < n)%Z
                then (n - count)%Z else 0%Z).
  set (kept := drop (Z.to_nat start) (history.Entries h)).
  destruct (imap_numbers kept 0) as [Hfst Hsnd]. simpl in Hfst, Hsnd.
  assert (Hkept : kept = if decide (0 < count < n)%Z
                         then drop (Z.to_nat (n - count)) (history.Entries h)
                         else history.Entries h).
  { subst kept start. destruct (decide (0 < count < n)%Z) as [Hrange|Hrange].
    - rewrite !bool_decide_true by lia. reflexivity.
    - destruct (bool_decide (0 < count)%Z) eqn:H1;
        destruct (bool_decide (count < n)%Z) eqn:H2; simpl; try done.
      apply bool_decide_eq_true in H1. apply bool_decide_eq_true in H2. lia. }
  repeat split.
  - by rewrite Hsnd.
  - rewrite length_imap, Hkept. case_decide; [|done].
    rewrite length_drop. subst n. lia.
  - by rewrite length_imap, Hfst.
Qed.

(** X19, witness. *)
Lemma shown_entries_witness :
  ∃ shown,
    history.ShowHistory threeEntries 2 = inr shown
    ∧ shown.*2 =
        (if decide (0 < 2 < 3)%Z
         then drop (Z.to_nat (3 - 2))
                [sampleEntry "one" "1"; sampleEntry "two" "2";
                 sampleEntry "three" "3"]
         else [sampleEntry "one" "1"; sampleEntry "two" "2";
               sampleEntry "three" "3"])
    ∧ Z.of_nat (length shown) = (if decide (0 < 2 < 3)%Z then 2 else 3)%Z
    ∧ shown.*1 = seqZ 1 (Z.of_nat (length shown)).
Proof.
  apply (shown_entries threeEntries
           (history.mkHistory
              [sampleEntry "one" "1"; sampleEntry "two" "2";
               sampleEntry "three" "3"]) 2).
  reflexivity.
Defined.

(** X20.  [truncateString] with a limit of at least 3 never returns more bytes
    than the limit: a string within the limit comes back unchanged, a longer
    one is cut to exactly the limit, its last three bytes replaced by dots.
    With a limit below 3 and a longer string the slice panics. *)
Theorem truncated_length (s : string) (maxLen : Z) :
  ((3 <= maxLen)%Z ->
     ∃ r, history.truncateString s maxLen = Some r
          ∧ (Z.of_nat (String.length r) <= maxLen)%Z
          ∧ ((Z.of_nat (String.length s) <= maxLen)%Z -> r = s)
          ∧ ((maxLen < Z.of_nat (String.length s))%Z ->
               Z.of_nat (String.length r) = maxLen
               ∧ r = String.substring 0 (Z.to_nat (maxLen - 3)) s +:+ "..."))
  ∧ ((maxLen < 3)%Z -> (maxLen < Z.of_nat (String.length s))%Z ->
     history.truncateString s maxLen = None).
Proof.
  unfold history.truncateString. split.
  - intros Hlimit. case_decide as Hshort.
    + exists s. repeat split; try done; lia.
    + rewrite decide_False by lia. eexists. split; [reflexivity|].
      assert (Hlen : Z.of_nat (String.length
                (String.substring 0 (Z.to_nat (maxLen - 3)) s +:+ "..."))
              = maxLen).
      { rewrite length_append, length_substring by lia. simpl. lia. }
      repeat split; try done; lia.
  - intros Hsmall Hlong. rewrite decide_False by lia.
    by rewrite decide_True by lia.
Qed.

(** X20, witness. *)
Lemma truncated_witness :
  (∃ r, history.truncateString "Provide helpful and concise responses" 10
        = Some r
        ∧ (Z.of_nat (String.length r) <= 10)%Z
        ∧ ((Z.of_nat (String.length "Provide helpful and concise responses")
            <= 10)%Z -> r = "Provide helpful and concise responses")
        ∧ ((10 < Z.of_nat (String.length "Provide helpful and concise responses"))%Z ->
             Z.of_nat (String.length r) = 10%Z
             ∧ r = String.substring 0 (Z.to_nat (10 - 3))
                     "Provide helpful and concise responses" +:+ "..."))
  ∧ history.truncateString "hello" 2 = None.
Proof.
  split.
  - apply (truncated_length "Provide helpful and concise responses" 10). lia.
  - apply (truncated_length "hello" 2); simpl; lia.
Defined.

(** ** Counting tokens *)

(** X21.  [strings.Split] on a one-byte separator returns one piece more than the
    separator occurs, so at least one piece, also for the empty string; no
    piece contains the separator, and putting the pieces together with the
    separator between them gives the string back. *)
Theorem split_pieces (s : string) (sep : Ascii.ascii) :
  length (strings_Split s sep) = S (occurrences sep s)
  ∧ Forall (fun piece => occurrences sep piece = 0) (strings_Split s sep)
  ∧ joinWith sep (strings_Split s sep) = s.
Proof.
  induction s as [|a s (IHlen & IHfree & IHjoin)]; simpl.
  - repeat split. by repeat constructor.
  - destruct (Ascii.eqb a sep) eqn:Ha; simpl.
    + apply Ascii.eqb_eq in Ha as ->. repeat split.
      * by rewrite IHlen.
      * by constructor.
      * destruct (strings_Split s sep) as [|p ps] eqn:Hsplit; [done|].
        by rewrite IHjoin.
    + destruct (strings_Split s sep) as [|p ps] eqn:Hsplit; [done|].
      repeat split.
      * simpl in *. lia.
      * apply Forall_cons in IHfree as [Hp Hps]. constructor; [|done].
        simpl. by rewrite Ha, Hp.
      * simpl in *. destruct ps as [|q qs].
        -- by rewrite IHjoin.
        -- rewrite append_cons. by rewrite IHjoin.
Qed.

(** ** internal/cli: one exchange and its record *)

Lemma evaluatePrompt_returns (t : GoText) (text : string) :
  ∃ a, assessment.EvaluatePromptForHistory t text = Some a.
Proof.
  unfold assessment.EvaluatePromptForHistory, assessment.evaluatePrompt,
    assessment.calculateOverallScore.
  rewrite (criteria_size t text). change (Z.of_nat 11 * 5)%Z with 55%Z.
  rewrite decide_False by lia. by eexists.
Qed.

(** X22.  When a stream breaks after text was received, [sendMessageAndLogHistory]
    hands its caller the empty string with the error: the partial text the
    adapter returned is dropped, and nothing is written to the history.
    This holds for Ollama and for OpenAI, Groq and Together. *)
Theorem partial_text_is_dropped (t : GoText) (opts : ChatOptions) (now : Z)
    (d : history.Store) :
  (∀ (o : Ollama.OllamaClient) (message : string) (x : Ollama.Exchange)
     (resp : Ollama.Response),
      Ollama.marshal x = None ->
      is_Some (Ollama.httpClient o) ->
      Ollama.post x = inr resp ->
      Ollama.StatusCode resp = 200%Z ->
      Forall (fun r => Ollama.Done r = false) (frames (Ollama.Chunks resp)) ->
      closing (Ollama.Chunks resp) ≠ io_EOF ->
      sendMessageAndLogHistory Ollama.SendMessage Ollama.GetModelName t o
        message x opts now d
        = Some (mkLogged (Ollama.append o (Ollama.mkMessage UserRole message))
                  "" (Ollama.since x)
                  (Some (Errorf_w "failed to decode response: "
                           (closing (Ollama.Chunks resp)))) d))
  ∧ (∀ send,
      send ∈ [OpenAI.SendMessage; Groq.SendMessage; Together.SendMessage] ->
      ∀ (a : SSE.Adapter) (message : string) (x : SSE.Exchange)
        (stream : Stream openai.ChatCompletionStreamResponse),
        is_Some (SSE.client a) ->
        SSE.create x = inr stream ->
        takenForEOF (closing stream) = false ->
        sendMessageAndLogHistory send SSE.selectedModel t a message x opts
          now d
          = Some (mkLogged (SSE.append a (openai.mkMessage UserRole message))
                    "" (SSE.since x)
                    (Some (Errorf_w "stream error: " (closing stream))) d)).
Proof.
  split.
  - intros o message x resp Hmarshal Hclient Hpost Hstatus Hdone Hclosing.
    unfold sendMessageAndLogHistory.
    rewrite (ollama_send_spec _ _ _ _ Hmarshal Hclient Hpost Hstatus).
    rewrite ollama_receive_spec, (existsb_Done_false _ Hdone),
      (is_io_EOF_false _ Hclosing).
    reflexivity.
  - intros send Hsend a message x stream Hclient Hcreate Hclosing.
    unfold sendMessageAndLogHistory.
    rewrite (sse_send_spec _ _ _ _ _ Hsend Hclient Hcreate).
    simpl. by rewrite Hclosing.
Qed.

(** X22, witness. *)
Lemma partial_text_witness :
  sendMessageAndLogHistory Groq.SendMessage SSE.selectedModel asciiText
    sseReady "hi" (sseAnswer [delta "Hel"] connectionReset) plainOptions 0
    emptyStore
    = Some (mkLogged (SSE.append sseReady (openai.mkMessage UserRole "hi"))
              "" 1500%Z (Some (Errorf_w "stream error: " connectionReset))
              emptyStore).
Proof.
  apply (proj2 (partial_text_is_dropped asciiText plainOptions 0 emptyStore)
           Groq.SendMessage ltac:(set_solver) sseReady "hi"
           (sseAnswer [delta "Hel"] connectionReset)
           (mkStream [delta "Hel"] connectionReset));
    [by eexists | reflexivity | reflexivity].
Defined.



(** X24.  The caller of [sendMessageAndLogHistory] never learns that recording
    failed: after a successful exchange the result is the response with a
    nil error on every store, also one on which [AddEntry] returns an
    error; and with [SkipHistory] the store is not touched. *)
Theorem recording_failure_is_silent {C X : Type}
    (SendMessage : C -> string -> X -> Outcome C) (GetModelName : C -> string)
    (t : GoText) (c c' : C) (text reply : string) (x : X)
    (opts : ChatOptions) (now : Z) (d : history.Store) (taken : Duration) :
  SendMessage c text x = Return c' reply taken None ->
  ∃ logged,
    sendMessageAndLogHistory SendMessage GetModelName t c text x opts now d
      = Some logged
    ∧ client logged = c' ∧ response logged = reply
    ∧ elapsed logged = taken ∧ err logged = None
    ∧ (SkipHistory opts = true -> store logged = d)
    ∧ ((∃ e, history.LoadHistory d = inl e) -> store logged = d).
Proof.
  intros Hsend. unfold sendMessageAndLogHistory. rewrite Hsend.
  destruct (SkipHistory opts) eqn:Hskip.
  { eexists. split; [reflexivity|]. by repeat split. }
  assert (Hfail : ∀ entry, (∃ e, history.LoadHistory d = inl e) ->
            (history.AddEntry d entry).1 = d).
  { intros entry [e He]. unfold history.AddEntry. by rewrite He. }
  destruct (Assess opts).
  - destruct (evaluatePrompt_returns t text) as [a ->].
    eexists. split; [reflexivity|]. simpl. repeat split; try done.
    apply Hfail.
  - eexists. split; [reflexivity|]. simpl. repeat split; try done.
    apply Hfail.
Qed.

(** X24, witness. *)
Lemma recording_failure_witness :
  ∃ logged,
    sendMessageAndLogHistory Groq.SendMessage SSE.selectedModel asciiText
      sseReady "say hi" (sseAnswer [delta "Hel"; delta "lo"] io_EOF)
      plainOptions 0 garbledStore
      = Some logged
    ∧ client logged
      = SSE.append (SSE.append sseReady (openai.mkMessage UserRole "say hi"))
          (openai.mkMessage AssistantRole "Hello")
    ∧ response logged = "Hello"
    ∧ elapsed logged = 1500%Z ∧ err logged = None
    ∧ (SkipHistory plainOptions = true -> store logged = garbledStore)
    ∧ ((∃ e, history.LoadHistory garbledStore = inl e) ->
       store logged = garbledStore).
Proof.
  apply (recording_failure_is_silent Groq.SendMessage SSE.selectedModel
           asciiText sseReady _ "say hi" "Hello"
           (sseAnswer [delta "Hel"; delta "lo"] io_EOF) plainOptions 0
           garbledStore 1500%Z).
  reflexivity.
Defined.

(** ** The provider flag and the factory *)

Lemma supported_is_dispatched (w : World) (value : string) :
  value ∈ supported ->
  result (CreateChatClient w value)
    ≠ inl (errorString ("unsupported provider: " +:+ value)).
Proof.
  intros Hin. unfold supported in Hin.
  each_of Hin; unfold CreateChatClient; simpl.
  - case_decide; [|done]. unfold initialized. simpl.
    unfold Together.Initialize. by case_decide.
  - unfold initialized. simpl. unfold Ollama.Initialize.
    destruct (httpGet w _) as [e|[status body]]; [done|].
    case_decide; [|done]. simpl. intros [=].
  - case_decide; [|done]. unfold initialized. simpl.
    unfold Groq.Initialize. by case_decide.
  - case_decide; [|done]. unfold initialized. simpl.
    unfold Samba.Initialize. by case_decide.
  - case_decide; [|done]. unfold initialized. simpl.
    unfold OpenAI.Initialize. case_decide; [done|].
    by destruct (ValidateAPIKey w _ _).
  - case_decide; [|done]. unfold initialized. simpl.
    unfold Gemini.Initialize. case_decide; [done|].
    by destruct (genaiNewClient w _).
Qed.

(** X25.  [ProviderFlag.Set] and the factory agree on the names.  A value the
    flag accepts becomes the value of the flag and is never answered
    "unsupported provider" by [CreateChatClient]; a value the flag rejects
    leaves the flag as it was, and the factory would answer it with exactly
    that error.  "gemini" is accepted although the flag's error text does
    not list it. *)
Theorem flag_and_factory_agree (w : World) (p : Provider) (value : string) :
  ((ProviderFlag_Set p value).2 = None ->
     (ProviderFlag_Set p value).1 = value
     ∧ result (CreateChatClient w value)
       ≠ inl (errorString ("unsupported provider: " +:+ value)))
  ∧ ((ProviderFlag_Set p value).2 ≠ None ->
     (ProviderFlag_Set p value).1 = p
     ∧ CreateChatClient w value
       = mkCreated [] (inl (errorString ("unsupported provider: " +:+ value))))
  ∧ (ProviderFlag_Set p ProviderGemini).2 = None.
Proof.
  unfold ProviderFlag_Set. split; [|split]; [| |done].
  - case_bool_decide as Hin; [|done]. intros _. split; [done|].
    by apply supported_is_dispatched.
  - case_bool_decide as Hin; [done|]. intros _. split; [done|].
    pose proof (create_spec w value) as Hspec.
    destruct (fresh value) as [c0|] eqn:Hfresh; [|done].
    exfalso. apply Hin. apply (proj2 (fresh_supported value)). by eexists.
Qed.

(** X25, witness. *)
Lemma flag_and_factory_witness :
  ((ProviderFlag_Set ProviderOllama "groq").1 = "groq"
   ∧ result (CreateChatClient (world ∅ 200) "groq")
     ≠ inl (errorString ("unsupported provider: " +:+ "groq")))
  ∧ ((ProviderFlag_Set ProviderOllama "mistral").1 = ProviderOllama
     ∧ CreateChatClient (world ∅ 200) "mistral"
       = mkCreated []
           (inl (errorString ("unsupported provider: " +:+ "mistral")))).
Proof.
  split.
  - by apply (flag_and_factory_agree (world ∅ 200) ProviderOllama "groq").
  - by apply (flag_and_factory_agree (world ∅ 200) ProviderOllama "mistral").
Defined.
